(** * MseDecoder: momentum statistics, stall recovery and buffer trimming

    A shallow embedding of [src/decoder/MseDecoder.ts].  The decoder object is
    a record, every method is a function from the object to the updated
    object together with the list of requests it sent to the video element
    and to the h264 converter.  Everything the methods read from the outside
    world (the clock, the capabilities and counters of the video element, its
    buffered ranges) comes in through an explicit environment value. *)

From Stdlib Require Import ZArith QArith Qround List Bool Lia Sorted.
From Stdlib Require Strings.Byte.
Import ListNotations.
Open Scope Z_scope.

(** ** Data model *)

(** [interface QualityStats] (lines 6-10). *)
Module QualityStats.
Record t : Set := mk { timestamp : Z; decodedFrames : Z; droppedFrames : Z }.
End QualityStats.

(** Element type of [this.inputBytes]; the source reads its [timestamp] and
    [bytes] fields (lines 105-110). *)
Module InputSample.
Record t : Set := mk { timestamp : Z; bytes : Z }.
End InputSample.

(** The object literal assigned to [this.momentumQualityStats]
    (lines 118-124). *)
Module MomentumStats.
Record t : Set := mk {
  decodedFrames : Z;
  droppedFrames : Z;
  inputBytes : Z;
  inputFrames : Z;
  timestamp : Z }.
End MomentumStats.

(** [Size] and [VideoSettings], with the fields the constructor call of
    lines 13-20 lists. *)
Record Size : Set := { width : Z; height : Z }.

Record VideoSettings : Set := {
  lockedVideoOrientation : Z;
  bitrate : Z;
  maxFps : Z;
  iFrameInterval : Z;
  bounds : Size;
  sendFrameMeta : bool }.

Definition preferredVideoSettings : VideoSettings :=
  {| lockedVideoOrientation := -1;
     bitrate := 8000000;
     maxFps := 60;
     iFrameInterval := 10;
     bounds := {| width := 720; height := 720 |};
     sendFrameMeta := false |}.

Definition DEFAULT_FRAMES_PER_FRAGMENT : Z := 1.
Definition DEFAULT_FRAMES_PER_SECOND : Z := 60.

(** A frame is a [Uint8Array]. *)
Definition Frame : Set := list Byte.byte.

Definition byteLength (frame : Frame) : Z := Z.of_nat (length frame).

(** ** The video element as the decoder observes it

    Media times are finite doubles; every finite double is a rational and
    the comparison [<] and the conversion [| 0] are exact on them, so times
    are values of [Q].  [buffered] is the element's [TimeRanges] snapshot:
    removal and append requests are carried out asynchronously by the
    browser, so one snapshot serves a whole synchronous call. *)
Record VideoPlaybackQuality : Set := {
  totalVideoFrames : Z;
  droppedVideoFrames : Z }.

Record VideoTag : Set := {
  (** [video.mozDecodedFrames], [None] when [undefined] *)
  mozDecodedFrames : option Z;
  (** the result of [tag.getVideoPlaybackQuality()], [None] when the element
      has no such function *)
  playbackQuality : option VideoPlaybackQuality;
  (** [video.webkitDecodedFrameCount] and [video.webkitDroppedFrameCount],
      [None] when the former is [undefined] *)
  webkitFrameCount : option (Z * Z);
  (** [tag.buffered]: the ordered list of ranges [(start, end)] *)
  buffered : list (Q * Q) }.

(** The readings one call takes from the outside: the element, and the three
    readings of [Date.now()], in the order they are taken. *)
Record Env : Set := {
  tag : VideoTag;
  (** [Date.now()] of the base class when it records the input sample *)
  nowInput : Z;
  (** [Date.now()] of line 71 *)
  nowQuality : Z;
  (** [Date.now()] of line 98 *)
  nowMomentum : Z }.

(** ** The decoder object *)

(** [Decoder.STATE]; the declaration is in the base class. *)
Inductive STATE : Set := INIT | PLAYING | PAUSED | STOPPED.

Definition STATE_eqb (a b : STATE) : bool :=
  match a, b with
  | INIT, INIT | PLAYING, PLAYING | PAUSED, PAUSED | STOPPED, STOPPED => true
  | _, _ => false
  end.

(** The fields of the base class [Decoder] that [MseDecoder] reads or
    writes.  [screenInfo] is only tested for presence. *)
Record Decoder : Set := {
  state : STATE;
  screenInfo : bool;
  videoSettings : option VideoSettings;
  inputBytes : list InputSample.t;
  momentumQualityStats : option MomentumStats.t }.

(** A [VideoConverter] is identified by the arguments it was created with. *)
Record VideoConverter : Set := { fps : Z; converter_fpf : Z }.

(** The object: the base part, the private fields of lines 37-41, and the
    number of [onSeekEnd] closures currently registered for ['seeked'] on
    the element. *)
Record MseDecoder : Set := {
  super : Decoder;
  converter : option VideoConverter;
  videoStats : list QualityStats.t;
  stalledCounter : Z;
  isSeeking : bool;
  fpf : Z;
  seekedListeners : nat }.

Definition set_super (d : Decoder) (o : MseDecoder) : MseDecoder :=
  {| super := d; converter := converter o; videoStats := videoStats o;
     stalledCounter := stalledCounter o; isSeeking := isSeeking o;
     fpf := fpf o; seekedListeners := seekedListeners o |}.

Definition set_converter (c : option VideoConverter) (o : MseDecoder) : MseDecoder :=
  {| super := super o; converter := c; videoStats := videoStats o;
     stalledCounter := stalledCounter o; isSeeking := isSeeking o;
     fpf := fpf o; seekedListeners := seekedListeners o |}.

Definition set_videoStats (v : list QualityStats.t) (o : MseDecoder) : MseDecoder :=
  {| super := super o; converter := converter o; videoStats := v;
     stalledCounter := stalledCounter o; isSeeking := isSeeking o;
     fpf := fpf o; seekedListeners := seekedListeners o |}.

Definition set_stalledCounter (n : Z) (o : MseDecoder) : MseDecoder :=
  {| super := super o; converter := converter o; videoStats := videoStats o;
     stalledCounter := n; isSeeking := isSeeking o;
     fpf := fpf o; seekedListeners := seekedListeners o |}.

Definition set_isSeeking (b : bool) (o : MseDecoder) : MseDecoder :=
  {| super := super o; converter := converter o; videoStats := videoStats o;
     stalledCounter := stalledCounter o; isSeeking := b;
     fpf := fpf o; seekedListeners := seekedListeners o |}.

Definition set_seekedListeners (n : nat) (o : MseDecoder) : MseDecoder :=
  {| super := super o; converter := converter o; videoStats := videoStats o;
     stalledCounter := stalledCounter o; isSeeking := isSeeking o;
     fpf := fpf o; seekedListeners := n |}.

Definition set_inputBytes (l : list InputSample.t) (d : Decoder) : Decoder :=
  {| state := state d; screenInfo := screenInfo d;
     videoSettings := videoSettings d; inputBytes := l;
     momentumQualityStats := momentumQualityStats d |}.

Definition set_momentumQualityStats (m : option MomentumStats.t) (d : Decoder) : Decoder :=
  {| state := state d; screenInfo := screenInfo d;
     videoSettings := videoSettings d; inputBytes := inputBytes d;
     momentumQualityStats := m |}.

(** The object a constructor call leaves behind (field initialisers of
    lines 37-41). *)
Definition new_MseDecoder (d : Decoder) : MseDecoder :=
  {| super := d; converter := None; videoStats := []; stalledCounter := 0;
     isSeeking := false; fpf := DEFAULT_FRAMES_PER_FRAGMENT;
     seekedListeners := 0 |}.

(** ** Requests sent to the collaborators *)

Inductive Request : Set :=
  | SourceBufferRemove (start : Q) (end_ : Z)   (* sourceBuffer.remove(start, end) *)
  | AppendRawData (frame : Frame)               (* converter.appendRawData(frame) *)
  | ConsoleWarn                                 (* console.warn(name, 'Stalled! ...') *)
  | AddSeekedListener                           (* tag.addEventListener('seeked', onSeekEnd) *)
  | SetCurrentTime (position : Q)               (* tag.currentTime = position *)
  | CreateConverter (c : VideoConverter)        (* new VideoConverter(tag, fps, fpf) *)
  | ConverterPlay                               (* converter.play() *)
  | ConverterPause.                             (* converter.pause() *)

(** A method takes the object and returns the object and what it sent. *)
Definition Method : Set := MseDecoder -> MseDecoder * list Request.

Definition skip : Method := fun o => (o, []).

Definition update (f : MseDecoder -> MseDecoder) : Method := fun o => (f o, []).

Definition send (r : Request) : Method := fun o => (o, [r]).

Definition andThen (m1 m2 : Method) : Method :=
  fun o => let (o1, t1) := m1 o in
           let (o2, t2) := m2 o1 in
           (o2, t1 ++ t2).

Declare Scope method_scope.
Delimit Scope method_scope with method.
Bind Scope method_scope with Method.
Notation "m1 ;; m2" := (andThen m1 m2)
  (at level 61, right associativity) : method_scope.

(** ** Number conversions *)

(** The integer part: rounding towards zero. *)
Definition truncate (x : Q) : Z := Z.quot (Qnum x) (Zpos (Qden x)).

(** [x | 0]: ECMAScript's [ToInt32] of a finite number. *)
Definition ToInt32 (x : Q) : Z :=
  let k := truncate x mod 2 ^ 32 in
  if 2 ^ 31 <=? k then k - 2 ^ 32 else k.

(** [a < b] on numbers. *)
Definition Qltb (a b : Q) : bool :=
  match (a ?= b)%Q with Lt => true | _ => false end.

(** ** The quality sampler (lines 65-90) *)

Definition getVideoPlaybackQuality (e : Env) : option QualityStats.t :=
  match mozDecodedFrames (tag e) with
  | Some _ => None
  | None =>
      let now := nowQuality e in
      match playbackQuality (tag e) with
      | Some temp =>
          Some (QualityStats.mk now (totalVideoFrames temp) (droppedVideoFrames temp))
      | None =>
          match webkitFrameCount (tag e) with
          | Some (decoded, dropped) => Some (QualityStats.mk now decoded dropped)
          | None => None
          end
      end
  end.

(** ** The sliding windows and the momentum estimate (lines 92-126) *)

(** [while (w.length && w[0].timestamp < oneSecondBefore) w.shift();] *)
Fixpoint shiftOlder {A : Type} (timestamp : A -> Z) (oneSecondBefore : Z)
    (w : list A) : list A :=
  match w with
  | [] => []
  | first :: rest =>
      if timestamp first <? oneSecondBefore
      then shiftOlder timestamp oneSecondBefore rest
      else w
  end.

(** [let inputBytes = 0; this.inputBytes.forEach(item => inputBytes += item.bytes)] *)
Definition sumBytes (w : list InputSample.t) : Z :=
  fold_left (fun acc item => acc + InputSample.bytes item) w 0.

Definition calculateMomentumStats (e : Env) (o : MseDecoder) : MseDecoder :=
  match getVideoPlaybackQuality e with
  | None => o
  | Some stat =>
      let timestamp := nowMomentum e in
      let oneSecondBefore := timestamp - 1000 in
      let vs := shiftOlder QualityStats.timestamp oneSecondBefore
                  (videoStats o ++ [stat]) in
      let ib := shiftOlder InputSample.timestamp oneSecondBefore
                  (inputBytes (super o)) in
      let o1 := set_super (set_inputBytes ib (super o)) (set_videoStats vs o) in
      let inputBytes := sumBytes ib in
      let inputFrames := Z.of_nat (length ib) in
      match vs with
      | [] => o1
      | oldest :: _ =>
          let decodedFrames :=
            QualityStats.decodedFrames stat - QualityStats.decodedFrames oldest in
          let droppedFrames :=
            QualityStats.droppedFrames stat - QualityStats.droppedFrames oldest in
          set_super
            (set_momentumQualityStats
               (Some (MomentumStats.mk decodedFrames droppedFrames
                        inputBytes inputFrames timestamp))
               (super o1))
            o1
      end
  end.

(** ** The methods of the class

    The base class [Decoder] is not part of this file.  Its lifecycle hooks
    and its frame classifier are parameters: each hook is any function on
    the base part of the object, which is all a base class can reach of the
    private fields of lines 37-40.  The base [setVideoSettings] of line 182
    may, besides, dispatch to the [resetStats] override of lines 128-131:
    its hook returns the base part it leaves and whether it called
    [this.resetStats()]. *)
Section Methods.

Variable isIFrame : Frame -> bool.
Variables Decoder_play Decoder_pause Decoder_stop Decoder_resetStats :
  Decoder -> Decoder.
Variable Decoder_setVideoSettings :
  VideoSettings -> bool -> Decoder -> Decoder * bool.

Local Open Scope method_scope.

Definition super_call (f : Decoder -> Decoder) : Method :=
  update (fun o => set_super (f (super o)) o).

(** Modelled from the spec: [Decoder.pushFrame], the base method that
    [super.pushFrame(frame)] of line 190 calls, is missing from the source.
    The spec: every pushed frame updates the input window with an
    [InputSample] taken at "now", then triggers the quality sampler and the
    momentum estimator, that is [this.calculateMomentumStats()]. *)
Definition Decoder_pushFrame (frame : Frame) (e : Env) : Method :=
  update (fun o =>
    let sample := InputSample.mk (nowInput e) (byteLength frame) in
    calculateMomentumStats e
      (set_super (set_inputBytes (inputBytes (super o) ++ [sample]) (super o)) o)).

(** Lines 128-131. *)
Definition resetStats : Method :=
  super_call Decoder_resetStats ;; update (set_videoStats []).

(** Lines 57-63. *)
Definition createConverter (fps fpf : Z) : VideoConverter :=
  {| fps := fps; converter_fpf := fpf |}.

(** Lines 228-234. *)
Definition stopConverter : Method :=
  fun o =>
    match converter o with
    | Some _ =>
        (send (AppendRawData []) ;; send ConverterPause ;;
         update (set_converter None)) o
    | None => skip o
    end.

(** Lines 145-159. *)
Definition play : Method :=
  super_call Decoder_play ;;
  fun o =>
    if negb (STATE_eqb (state (super o)) PLAYING) || negb (screenInfo (super o))
    then skip o
    else
      ((match converter o with
        | None =>
            let fps :=
              match videoSettings (super o) with
              | Some vs => maxFps vs
              | None => DEFAULT_FRAMES_PER_SECOND
              end in
            let c := createConverter fps (fpf o) in
            send (CreateConverter c) ;; update (set_converter (Some c)) ;;
            resetStats
        | Some _ => skip
        end) ;;
       send ConverterPlay) o.

(** Lines 161-169. *)
Definition pause : Method := super_call Decoder_pause ;; stopConverter.

Definition stop : Method := super_call Decoder_stop ;; stopConverter.

(** [super.setVideoSettings(videoSettings, saveToStorage)] of line 182:
    the base part becomes what the base method leaves, and when the base
    method called [this.resetStats()] the override has emptied the quality
    window (line 130). *)
Definition super_setVideoSettings (vs : VideoSettings) (saveToStorage : bool) :
    Method :=
  fun o =>
    let (d, resets) := Decoder_setVideoSettings vs saveToStorage (super o) in
    if resets
    then (set_videoStats [] (set_super d o), [])
    else (set_super d o, []).

(** Lines 171-183. *)
Definition setVideoSettings (vs : VideoSettings) (saveToStorage : bool) : Method :=
  (fun o =>
     match videoSettings (super o) with
     | Some current =>
         if negb (maxFps current =? maxFps vs) then
           let state0 := state (super o) in
           ((match converter o with
             | Some _ =>
                 let c := createConverter (maxFps vs) (fpf o) in
                 stop ;; send (CreateConverter c) ;; update (set_converter (Some c))
             | None => skip
             end) ;;
            (if STATE_eqb state0 PLAYING then play else skip)) o
         else skip o
     | None => skip o
     end) ;;
  super_setVideoSettings vs saveToStorage.

(** Lines 193-198: the range the trim looks at, [(0, 0)] when nothing is
    buffered. *)
Definition trimRange (b : list (Q * Q)) : Q * Z :=
  match b with
  | [] => (0%Q, 0)
  | (start, end_) :: _ => (start, ToInt32 end_)
  end.

(** Lines 191-205. *)
Definition appendFrame (frame : Frame) (e : Env) : Method :=
  fun o =>
    match converter o with
    | Some _ =>
        ((if isIFrame frame then
            let (start, end_) := trimRange (buffered (tag e)) in
            if negb (end_ =? 0) && Qltb start (inject_Z end_)
            then send (SourceBufferRemove start end_)
            else skip
          else skip) ;;
         send (AppendRawData frame)) o
    | None => skip o
    end.

(** The test of line 209. *)
Definition isStalled (m : MomentumStats.t) : bool :=
  (MomentumStats.decodedFrames m =? 0) && (0 <? MomentumStats.inputFrames m).

(** Lines 208-214. *)
Definition countStalled : Method :=
  update (fun o =>
    match momentumQualityStats (super o) with
    | Some m =>
        if negb (isSeeking o) then
          if isStalled m
          then set_stalledCounter (stalledCounter o + 1) o
          else set_stalledCounter 0 o
        else o
    | None => o
    end).

(** Lines 215-225.  [buffered.end(0)] is read under the guard
    [buffered.length], so the first range is there. *)
Definition recoverStalled (e : Env) : Method :=
  fun o =>
    if 5 <? stalledCounter o then
      match buffered (tag e) with
      | [] => skip o
      | (_, end0) :: _ =>
          (send ConsoleWarn ;;
           update (set_isSeeking true) ;;
           send AddSeekedListener ;;
           update (fun o => set_seekedListeners (S (seekedListeners o)) o) ;;
           send (SetCurrentTime end0) ;;
           update (set_stalledCounter 0)) o
      end
    else skip o.

(** Lines 189-226. *)
Definition pushFrame (frame : Frame) (e : Env) : Method :=
  Decoder_pushFrame frame e ;; appendFrame frame e ;;
  countStalled ;; recoverStalled e.

(** The element fires ['seeked']: every registered [onSeekEnd] runs
    (lines 217-220), clearing the flag and removing itself. *)
Definition onSeekEnd : Method :=
  update (fun o =>
    match seekedListeners o with
    | O => o
    | S _ => set_seekedListeners O (set_isSeeking false o)
    end).

(** ** Executions *)

Fixpoint pushFrames (ps : list (Frame * Env)) : Method :=
  match ps with
  | [] => skip
  | (frame, e) :: rest => pushFrame frame e ;; pushFrames rest
  end.

(** The positions of the forced seeks in a list of requests. *)
Fixpoint seeks (t : list Request) : list Q :=
  match t with
  | [] => []
  | SetCurrentTime p :: rest => p :: seeks rest
  | _ :: rest => seeks rest
  end.

(** The removal requests in a list of requests. *)
Fixpoint removals (t : list Request) : list (Q * Z) :=
  match t with
  | [] => []
  | SourceBufferRemove s e :: rest => (s, e) :: removals rest
  | _ :: rest => removals rest
  end.

(** The momentum that the push of [frame] recomputes shows no decoded frame
    although input arrived. *)
Definition observesStall (frame : Frame) (e : Env) (o : MseDecoder) : bool :=
  match momentumQualityStats (super (fst (Decoder_pushFrame frame e o))) with
  | Some m => isStalled m
  | None => false
  end.

(** Every push of the run observes a stall. *)
Fixpoint stalledRun (ps : list (Frame * Env)) (o : MseDecoder) : bool :=
  match ps with
  | [] => true
  | (frame, e) :: rest =>
      observesStall frame e o && stalledRun rest (fst (pushFrame frame e o))
  end.


(** The frames appended and the converters created in a list of requests. *)
Fixpoint appends (t : list Request) : list Frame :=
  match t with
  | [] => []
  | AppendRawData frame :: rest => frame :: appends rest
  | _ :: rest => appends rest
  end.

Fixpoint creations (t : list Request) : list VideoConverter :=
  match t with
  | [] => []
  | CreateConverter c :: rest => c :: creations rest
  | _ :: rest => creations rest
  end.

(** What can happen to the object: the public methods, the protected
    [resetStats], and the ['seeked'] event of the element. *)
Inductive Call : Set :=
  | CallPushFrame (frame : Frame) (e : Env)
  | CallSeeked
  | CallPlay
  | CallPause
  | CallStop
  | CallSetVideoSettings (vs : VideoSettings) (saveToStorage : bool)
  | CallResetStats.

Definition call (c : Call) : Method :=
  match c with
  | CallPushFrame frame e => pushFrame frame e
  | CallSeeked => onSeekEnd
  | CallPlay => play
  | CallPause => pause
  | CallStop => stop
  | CallSetVideoSettings vs saveToStorage => setVideoSettings vs saveToStorage
  | CallResetStats => resetStats
  end.

Fixpoint calls (cs : list Call) : Method :=
  match cs with
  | [] => skip
  | c :: rest => call c ;; calls rest
  end.

Definition isSeeked (c : Call) : bool :=
  match c with CallSeeked => true | _ => false end.

(** The stall detector is in one of its two states: normal, with no
    listener on the element; or waiting for ['seeked'], with exactly one
    listener and the counter at 0.  The counter is never negative. *)
Definition detectorState (o : MseDecoder) : Prop :=
  0 <= stalledCounter o /\
  ((isSeeking o = false /\ seekedListeners o = O) \/
   (isSeeking o = true /\ seekedListeners o = 1%nat /\ stalledCounter o = 0)).

(** The cumulative counters of a window never decrease from one sample to
    the next. *)
Definition countersNeverDecrease (w : list QualityStats.t) : Prop :=
  Sorted (fun a b =>
            QualityStats.decodedFrames a <= QualityStats.decodedFrames b /\
            QualityStats.droppedFrames a <= QualityStats.droppedFrames b) w.

(** The converter [play()] creates when there is none: the rate of the
    current settings, 60 without settings, and the decoder's frames per
    fragment. *)
Definition converterOfPlay (d : Decoder) (o : MseDecoder) : VideoConverter :=
  createConverter
    match videoSettings d with
    | Some vs => maxFps vs
    | None => DEFAULT_FRAMES_PER_SECOND
    end
    (fpf o).

(** [play()] gets as far as the converter when, after the base class has
    played, the state is [PLAYING] and the screen info is there. *)
Definition readyToPlay (d : Decoder) : bool :=
  STATE_eqb (state d) PLAYING && screenInfo d.

(** A method is quiet when it leaves the counter, the seek flag and the
    listener alone and requests no seek. *)
Definition quiet (m : Method) : Prop :=
  forall o,
    stalledCounter (fst (m o)) = stalledCounter o /\
    isSeeking (fst (m o)) = isSeeking o /\
    seekedListeners (fst (m o)) = seekedListeners o /\
    seeks (snd (m o)) = [].

(** The clock readings of a run of pushes never go back, from one reading
    to the next and from one push to the next. *)
Fixpoint clockNeverGoesBack (clock : Z) (ps : list (Frame * Env)) : Prop :=
  match ps with
  | [] => True
  | (_, e) :: rest =>
      clock <= nowInput e /\ nowInput e <= nowQuality e /\
      nowQuality e <= nowMomentum e /\
      clockNeverGoesBack (nowMomentum e) rest
  end.

(** [getPreferredVideoSetting()] (lines 185-187). *)
Definition getPreferredVideoSetting (o : MseDecoder) : VideoSettings :=
  preferredVideoSettings.

(** Samples in arrival order: timestamps never decrease along the window. *)
Definition arrivalOrder {A : Type} (timestamp : A -> Z) (w : list A) : Prop :=
  Sorted (fun a b => timestamp a <= timestamp b) w.

(** Both windows are in arrival order and hold nothing later than [clock]. *)
Definition windowsUpTo (clock : Z) (o : MseDecoder) : Prop :=
  arrivalOrder QualityStats.timestamp (videoStats o) /\
  arrivalOrder InputSample.timestamp (inputBytes (super o)) /\
  Forall (fun s => QualityStats.timestamp s <= clock) (videoStats o) /\
  Forall (fun s => InputSample.timestamp s <= clock) (inputBytes (super o)).

(** ** A concrete player

    The parameters instantiated: a classifier that takes the frames whose
    first byte is [0x65] for key frames, and base hooks that set the state,
    let [resetStats] clear the input window and the momentum, and let
    [setVideoSettings] store the settings without calling [resetStats]. *)

Definition firstByteClassifier (frame : Frame) : bool :=
  match frame with
  | first :: _ => Byte.eqb first Byte.x65
  | [] => false
  end.

Definition set_state (s : STATE) (d : Decoder) : Decoder :=
  {| state := s; screenInfo := screenInfo d;
     videoSettings := videoSettings d; inputBytes := inputBytes d;
     momentumQualityStats := momentumQualityStats d |}.

Definition clearStats (d : Decoder) : Decoder :=
  set_momentumQualityStats None (set_inputBytes [] d).

Definition storeVideoSettings (vs : VideoSettings) (saveToStorage : bool)
    (d : Decoder) : Decoder * bool :=
  ({| state := state d; screenInfo := screenInfo d;
      videoSettings := Some vs; inputBytes := inputBytes d;
      momentumQualityStats := momentumQualityStats d |}, false).

(** A newly constructed decoder, and the decoder that [play()] makes of it:
    playing, with a converter for 60 frames per second and empty windows. *)
Definition freshDecoder : MseDecoder :=
  new_MseDecoder
    {| state := INIT; screenInfo := true;
       videoSettings := Some preferredVideoSettings;
       inputBytes := []; momentumQualityStats := None |}.

Definition player : MseDecoder :=
  {| super :=
       {| state := PLAYING; screenInfo := true;
          videoSettings := Some preferredVideoSettings;
          inputBytes := []; momentumQualityStats := None |};
     converter := Some {| fps := 60; converter_fpf := 1 |};
     videoStats := []; stalledCounter := 0; isSeeking := false;
     fpf := DEFAULT_FRAMES_PER_FRAGMENT; seekedListeners := 0 |}.

(** A frame of 100 bytes that is not a key frame, and one that is. *)
Definition deltaFrame : Frame := repeat Byte.x41 100.
Definition keyFrame : Frame := Byte.x65 :: repeat Byte.x00 99.

(** An element with the standard counters, both stuck at 0, and the given
    buffered ranges; and one that only has the Gecko counter. *)
Definition stuckTag (ranges : list (Q * Q)) : VideoTag :=
  {| mozDecodedFrames := None;
     playbackQuality := Some {| totalVideoFrames := 0; droppedVideoFrames := 0 |};
     webkitFrameCount := None;
     buffered := ranges |}.

Definition geckoTag : VideoTag :=
  {| mozDecodedFrames := Some 0;
     playbackQuality := None;
     webkitFrameCount := None;
     buffered := [] |}.

(** The environment of a call at clock reading [now]. *)
Definition at_ (now : Z) (t : VideoTag) : Env :=
  {| tag := t; nowInput := now; nowQuality := now; nowMomentum := now |}.

Definition oneRange : list (Q * Q) := [(0, 3)]%Q.
Definition twoRanges : list (Q * Q) := [(0, 1); (3, 7)]%Q.

(** Stalled pushes, one every second. *)
Definition stalledPush (now : Z) : Frame * Env :=
  (deltaFrame, at_ now (stuckTag oneRange)).

Definition threeStalled : list (Frame * Env) :=
  map stalledPush [0; 1000; 2000].
Definition twoMoreStalled : list (Frame * Env) :=
  map stalledPush [3000; 4000].
Definition fiveStalled : list (Frame * Env) := threeStalled ++ twoMoreStalled.

Definition eightMoreStalled : list (Frame * Env) :=
  map stalledPush [6000; 7000; 8000; 9000; 10000; 11000; 12000; 13000].

Definition thirtyFps : VideoSettings :=
  {| lockedVideoOrientation := -1;
     bitrate := 8000000;
     maxFps := 30;
     iFrameInterval := 10;
     bounds := {| width := 720; height := 720 |};
     sendFrameMeta := false |}.

(** An element with the standard counters at the given decoded count. *)
Definition countingTag (decoded : Z) (ranges : list (Q * Q)) : VideoTag :=
  {| mozDecodedFrames := None;
     playbackQuality :=
       Some {| totalVideoFrames := decoded; droppedVideoFrames := 0 |};
     webkitFrameCount := None;
     buffered := ranges |}.

(** Stalled pushes while nothing is buffered, and pushes on an element
    without counters. *)
Definition unbufferedPush (now : Z) : Frame * Env :=
  (deltaFrame, at_ now (stuckTag [])).

Definition geckoPush (now : Z) : Frame * Env :=
  (deltaFrame, at_ now geckoTag).

(** A playing decoder that has no converter yet. *)
Definition waitingDecoder : MseDecoder := set_converter None player.


(** ** The sliding windows *)

Section Window.

Context {A : Type} (timestamp : A -> Z) (horizon : Z).

Let older (s : A) : bool := timestamp s <? horizon.
Let retained (s : A) : bool := horizon <=? timestamp s.

Lemma shiftOlder_front (w : list A) :
  exists front,
    w = front ++ shiftOlder timestamp horizon w /\
    Forall (fun s => timestamp s < horizon) front.
Proof.
  induction w as [|first rest IH]; simpl.
  - exists []. split; [reflexivity | constructor].
  - destruct (timestamp first <? horizon) eqn:Hold.
    + destruct IH as [front [Heq Hall]].
      exists (first :: front). split.
      * simpl. f_equal. exact Heq.
      * constructor; [apply Z.ltb_lt; exact Hold | exact Hall].
    + exists []. split; [reflexivity | constructor].
Qed.

Lemma shiftOlder_head (w : list A) :
  match shiftOlder timestamp horizon w with
  | [] => True
  | oldest :: _ => horizon <= timestamp oldest
  end.
Proof.
  induction w as [|first rest IH]; simpl; [exact I|].
  destruct (timestamp first <? horizon) eqn:Hold; [exact IH|].
  apply Z.ltb_ge. exact Hold.
Qed.

Lemma arrivalOrder_strong (w : list A) :
  arrivalOrder timestamp w ->
  StronglySorted (fun a b => timestamp a <= timestamp b) w.
Proof.
  apply Sorted_StronglySorted. intros a b c Hab Hbc. lia.
Qed.

Lemma filter_keep_all (keep : A -> bool) (w : list A) :
  Forall (fun s => keep s = true) w -> filter keep w = w.
Proof.
  induction 1 as [|s w Hs _ IH]; simpl; [reflexivity|].
  rewrite Hs, IH. reflexivity.
Qed.

Lemma filter_drop_all (keep : A -> bool) (w : list A) :
  Forall (fun s => keep s = false) w -> filter keep w = [].
Proof.
  induction 1 as [|s w Hs _ IH]; simpl; [reflexivity|].
  rewrite Hs, IH. reflexivity.
Qed.

(** On a window in arrival order the loop removes exactly the samples that
    are strictly older than the horizon. *)
Lemma shiftOlder_arrivalOrder (w : list A) :
  arrivalOrder timestamp w ->
  shiftOlder timestamp horizon w = filter retained w /\
  w = filter older w ++ shiftOlder timestamp horizon w.
Proof.
  intros Hsorted. apply arrivalOrder_strong in Hsorted.
  induction Hsorted as [|first rest Hrest IH Hfirst]; simpl.
  - split; reflexivity.
  - subst older retained. simpl in *.
    destruct (timestamp first <? horizon) eqn:Hold.
    + assert (Hret : (horizon <=? timestamp first) = false)
        by (apply Z.leb_gt; apply Z.ltb_lt; exact Hold).
      rewrite Hret. destruct IH as [IH1 IH2].
      split; [exact IH1 | simpl; f_equal; exact IH2].
    + apply Z.ltb_ge in Hold.
      assert (Hret : (horizon <=? timestamp first) = true)
        by (apply Z.leb_le; exact Hold).
      rewrite Hret.
      assert (Hall : Forall (fun s => horizon <= timestamp s) rest).
      { eapply Forall_impl; [|exact Hfirst]. simpl. intros s Hs. lia. }
      rewrite filter_keep_all, filter_drop_all.
      * split; reflexivity.
      * eapply Forall_impl; [|exact Hall]. simpl. intros s Hs.
        apply Z.ltb_ge. exact Hs.
      * eapply Forall_impl; [|exact Hall]. simpl. intros s Hs.
        apply Z.leb_le. exact Hs.
Qed.

Lemma shiftOlder_within_horizon (w : list A) :
  arrivalOrder timestamp w ->
  Forall (fun s => horizon <= timestamp s) (shiftOlder timestamp horizon w).
Proof.
  intros Hsorted.
  destruct (shiftOlder_arrivalOrder w Hsorted) as [Heq _].
  rewrite Heq. apply Forall_forall. intros s Hin.
  apply filter_In in Hin. destruct Hin as [_ Hin].
  apply Z.leb_le. exact Hin.
Qed.

(** A sample that is not older than the horizon and sits at the back of the
    window survives the loop, and stays at the back. *)
Lemma shiftOlder_keeps_latest (w : list A) (latest : A) :
  horizon <= timestamp latest ->
  exists oldest rest,
    shiftOlder timestamp horizon (w ++ [latest]) = oldest :: rest /\
    last (oldest :: rest) oldest = latest.
Proof.
  intros Hlatest.
  induction w as [|first w IH]; simpl.
  - assert (Hold : (timestamp latest <? horizon) = false)
      by (apply Z.ltb_ge; exact Hlatest).
    rewrite Hold. exists latest, []. split; reflexivity.
  - destruct (timestamp first <? horizon); [exact IH|].
    exists first, (w ++ [latest]). split; [reflexivity|].
    exact (last_last (first :: w) latest first).
Qed.

End Window.

(** ** The quality sampler and the momentum estimate *)

Lemma getVideoPlaybackQuality_timestamp (e : Env) (stat : QualityStats.t) :
  getVideoPlaybackQuality e = Some stat ->
  QualityStats.timestamp stat = nowQuality e.
Proof.
  unfold getVideoPlaybackQuality. intros H.
  destruct (mozDecodedFrames (tag e)); [discriminate|].
  destruct (playbackQuality (tag e)).
  - inversion H. reflexivity.
  - destruct (webkitFrameCount (tag e)) as [[decoded dropped]|];
      [inversion H; reflexivity | discriminate].
Qed.

(** The sampler has nothing to return exactly when the element is a Gecko
    one, or has neither the standard nor the WebKit counters. *)
Lemma getVideoPlaybackQuality_unavailable (e : Env) :
  getVideoPlaybackQuality e = None <->
  mozDecodedFrames (tag e) <> None \/
  (playbackQuality (tag e) = None /\ webkitFrameCount (tag e) = None).
Proof.
  unfold getVideoPlaybackQuality.
  destruct (mozDecodedFrames (tag e)) as [moz|].
  - split; [intros _; left; discriminate | reflexivity].
  - destruct (playbackQuality (tag e)) as [temp|].
    + split; [discriminate|]. intros [H|[H _]]; [now elim H | discriminate].
    + destruct (webkitFrameCount (tag e)) as [[decoded dropped]|].
      * split; [discriminate|]. intros [H|[_ H]]; [now elim H | discriminate].
      * split; [intros _; right; split; reflexivity | reflexivity].
Qed.

(** What a recomputation with counters leaves in the two windows. *)
Lemma calculateMomentumStats_windows (e : Env) (o : MseDecoder) (stat : QualityStats.t) :
  getVideoPlaybackQuality e = Some stat ->
  videoStats (calculateMomentumStats e o) =
    shiftOlder QualityStats.timestamp (nowMomentum e - 1000) (videoStats o ++ [stat]) /\
  inputBytes (super (calculateMomentumStats e o)) =
    shiftOlder InputSample.timestamp (nowMomentum e - 1000) (inputBytes (super o)).
Proof.
  intros Hstat. unfold calculateMomentumStats. rewrite Hstat.
  destruct (shiftOlder QualityStats.timestamp _ _); split; reflexivity.
Qed.

(** A recomputation touches the two windows and the momentum value only. *)
Lemma calculateMomentumStats_frame (e : Env) (o : MseDecoder) :
  let o' := calculateMomentumStats e o in
  stalledCounter o' = stalledCounter o /\
  isSeeking o' = isSeeking o /\
  converter o' = converter o /\
  seekedListeners o' = seekedListeners o /\
  fpf o' = fpf o.
Proof.
  unfold calculateMomentumStats.
  destruct (getVideoPlaybackQuality e); [|repeat split].
  destruct (shiftOlder QualityStats.timestamp _ _); repeat split.
Qed.

Lemma sumBytes_fold_right (w : list InputSample.t) :
  sumBytes w = fold_right Z.add 0 (map InputSample.bytes w).
Proof.
  unfold sumBytes.
  assert (H : forall acc,
             fold_left (fun a item => a + InputSample.bytes item) w acc =
             acc + fold_right Z.add 0 (map InputSample.bytes w)).
  { induction w as [|item w IH]; intros acc; simpl; [lia|].
    rewrite IH. lia. }
  rewrite H. lia.
Qed.

(** ** The shape of one push *)

Ltac run_methods :=
  unfold andThen, update, send, skip, super_call in *; cbn in *.

Lemma appendFrame_object (frame : Frame) (e : Env) (o : MseDecoder) :
  fst (appendFrame frame e o) = o.
Proof.
  unfold appendFrame. destruct (converter o); [|reflexivity].
  destruct (isIFrame frame); [|reflexivity].
  destruct (trimRange (buffered (tag e))) as [start end_].
  destruct (negb (end_ =? 0) && Qltb start (inject_Z end_)); reflexivity.
Qed.

Lemma appendFrame_seeks (frame : Frame) (e : Env) (o : MseDecoder) :
  seeks (snd (appendFrame frame e o)) = [].
Proof.
  unfold appendFrame. destruct (converter o); [|reflexivity].
  destruct (isIFrame frame); [|reflexivity].
  destruct (trimRange (buffered (tag e))) as [start end_].
  destruct (negb (end_ =? 0) && Qltb start (inject_Z end_)); reflexivity.
Qed.

Lemma pushFrame_phases (frame : Frame) (e : Env) (o : MseDecoder) :
  pushFrame frame e o =
    let o1 := fst (Decoder_pushFrame frame e o) in
    let o2 := fst (countStalled o1) in
    (fst (recoverStalled e o2),
     snd (appendFrame frame e o1) ++ snd (recoverStalled e o2)).
Proof.
  unfold pushFrame, andThen.
  unfold Decoder_pushFrame at 1, update at 1.
  set (o1 := fst (Decoder_pushFrame frame e o)).
  change (calculateMomentumStats e _) with o1.
  pose proof (appendFrame_object frame e o1) as Hobj.
  destruct (appendFrame frame e o1) as [oa ta]. simpl in Hobj. subst oa.
  unfold countStalled at 1, update at 1.
  change (match momentumQualityStats (super o1) with
          | Some m => _ | None => o1 end) with (fst (countStalled o1)).
  destruct (recoverStalled e (fst (countStalled o1))) as [o3 t3].
  cbn. reflexivity.
Qed.

Lemma countStalled_super (o : MseDecoder) :
  super (fst (countStalled o)) = super o.
Proof.
  unfold countStalled, update. cbn.
  destruct (momentumQualityStats (super o)) as [m|]; [|reflexivity].
  destruct (isSeeking o); [reflexivity|].
  destruct (isStalled m); reflexivity.
Qed.

Lemma recoverStalled_super (e : Env) (o : MseDecoder) :
  super (fst (recoverStalled e o)) = super o.
Proof.
  unfold recoverStalled.
  destruct (5 <? stalledCounter o); [|reflexivity].
  destruct (buffered (tag e)) as [|[start0 end0] ranges]; reflexivity.
Qed.

Lemma pushFrame_momentum (frame : Frame) (e : Env) (o : MseDecoder) :
  momentumQualityStats (super (fst (pushFrame frame e o))) =
  momentumQualityStats (super (fst (Decoder_pushFrame frame e o))).
Proof.
  rewrite pushFrame_phases. cbv zeta. cbn [fst].
  rewrite recoverStalled_super, countStalled_super. reflexivity.
Qed.

(** C6.  When the samples of both windows, the new quality sample included,
    are in arrival order, then after the eviction step of a recomputation
    every sample left in either window has a timestamp of at least
    [now - 1000], [now] being the reading the recomputation took, and each
    window is what it was with exactly its samples strictly older than
    [now - 1000] taken off the front. *)
Theorem eviction_keeps_horizon (e : Env) (o : MseDecoder) (stat : QualityStats.t) :
  getVideoPlaybackQuality e = Some stat ->
  arrivalOrder QualityStats.timestamp (videoStats o ++ [stat]) ->
  arrivalOrder InputSample.timestamp (inputBytes (super o)) ->
  let o' := calculateMomentumStats e o in
  let horizon := nowMomentum e - 1000 in
  Forall (fun s => horizon <= QualityStats.timestamp s) (videoStats o') /\
  Forall (fun s => horizon <= InputSample.timestamp s) (inputBytes (super o')) /\
  videoStats o ++ [stat] =
    filter (fun s => QualityStats.timestamp s <? horizon) (videoStats o ++ [stat])
    ++ videoStats o' /\
  inputBytes (super o) =
    filter (fun s => InputSample.timestamp s <? horizon) (inputBytes (super o))
    ++ inputBytes (super o').
Proof.
  intros Hstat Hquality Hinput o' horizon. subst o' horizon.
  destruct (calculateMomentumStats_windows e o stat Hstat) as [Hvs Hib].
  rewrite Hvs, Hib.
  split; [apply shiftOlder_within_horizon; exact Hquality|].
  split; [apply shiftOlder_within_horizon; exact Hinput|].
  split.
  - apply (shiftOlder_arrivalOrder QualityStats.timestamp). exact Hquality.
  - apply (shiftOlder_arrivalOrder InputSample.timestamp). exact Hinput.
Qed.

(** C7.  On a recomputation with counters, the clock having advanced by no
    more than the horizon between the sampling and the recomputation, the
    quality window is not empty after eviction, its latest sample is the one
    just taken, and [momentumQualityStats] is replaced by the differences of
    the latest and the oldest retained sample, the sum of the bytes and the
    number of the retained input samples. *)
Theorem momentum_replaced (e : Env) (o : MseDecoder) (stat : QualityStats.t) :
  getVideoPlaybackQuality e = Some stat ->
  nowMomentum e - 1000 <= nowQuality e ->
  let o' := calculateMomentumStats e o in
  exists oldest rest,
    videoStats o' = oldest :: rest /\
    last (videoStats o') oldest = stat /\
    momentumQualityStats (super o') =
      Some (MomentumStats.mk
              (QualityStats.decodedFrames stat - QualityStats.decodedFrames oldest)
              (QualityStats.droppedFrames stat - QualityStats.droppedFrames oldest)
              (fold_right Z.add 0 (map InputSample.bytes (inputBytes (super o'))))
              (Z.of_nat (length (inputBytes (super o'))))
              (nowMomentum e)).
Proof.
  intros Hstat Hclock o'. subst o'.
  rewrite <- (getVideoPlaybackQuality_timestamp e stat Hstat) in Hclock.
  destruct (shiftOlder_keeps_latest QualityStats.timestamp (nowMomentum e - 1000)
              (videoStats o) stat Hclock) as [oldest [rest [Hvs Hlast]]].
  exists oldest, rest.
  unfold calculateMomentumStats. rewrite Hstat. cbv zeta. rewrite Hvs. cbn.
  split; [reflexivity|]. split; [exact Hlast|].
  rewrite sumBytes_fold_right. reflexivity.
Qed.

(** C8.  When the sampler has nothing to return, the recomputation changes
    nothing: the object, and so [momentumQualityStats], is what it was; and
    the push that triggered it leaves [momentumQualityStats] at its previous
    value too. *)
Theorem unavailable_counters_keep_momentum (e : Env) (o : MseDecoder) (frame : Frame) :
  getVideoPlaybackQuality e = None ->
  calculateMomentumStats e o = o /\
  momentumQualityStats (super (calculateMomentumStats e o)) =
    momentumQualityStats (super o) /\
  momentumQualityStats (super (fst (pushFrame frame e o))) =
    momentumQualityStats (super o).
Proof.
  intros Hnone.
  assert (Hcalc : forall o1, calculateMomentumStats e o1 = o1).
  { intros o1. unfold calculateMomentumStats. rewrite Hnone. reflexivity. }
  split; [apply Hcalc|]. split; [rewrite Hcalc; reflexivity|].
  rewrite pushFrame_momentum. unfold Decoder_pushFrame, update. cbn.
  rewrite Hcalc. reflexivity.
Qed.

(** ** Stall counting and recovery *)

Lemma seeks_app (t1 t2 : list Request) :
  seeks (t1 ++ t2) = seeks t1 ++ seeks t2.
Proof.
  induction t1 as [|r t1 IH]; simpl; [reflexivity|].
  destruct r; simpl; rewrite IH; reflexivity.
Qed.

Lemma Decoder_pushFrame_frame (frame : Frame) (e : Env) (o : MseDecoder) :
  let o1 := fst (Decoder_pushFrame frame e o) in
  stalledCounter o1 = stalledCounter o /\ isSeeking o1 = isSeeking o.
Proof.
  unfold Decoder_pushFrame, update. cbn.
  match goal with
  | |- context [calculateMomentumStats e ?x] =>
      destruct (calculateMomentumStats_frame e x) as [Hc [Hs _]]
  end.
  split; assumption.
Qed.

Lemma pushFrame_seeks (frame : Frame) (e : Env) (o : MseDecoder) :
  seeks (snd (pushFrame frame e o)) =
  seeks (snd (recoverStalled e (fst (countStalled (fst (Decoder_pushFrame frame e o)))))).
Proof.
  rewrite pushFrame_phases. cbv zeta. cbn [snd].
  rewrite seeks_app, appendFrame_seeks. reflexivity.
Qed.

(** What the recovery step does, by cases on its guard. *)
Lemma recoverStalled_idle (e : Env) (o : MseDecoder) :
  stalledCounter o <= 5 \/ buffered (tag e) = [] ->
  recoverStalled e o = (o, []).
Proof.
  intros Hguard. unfold recoverStalled.
  destruct (5 <? stalledCounter o) eqn:Hover; [|reflexivity].
  apply Z.ltb_lt in Hover.
  destruct Hguard as [Hle | Hempty]; [lia|].
  rewrite Hempty. reflexivity.
Qed.

Lemma recoverStalled_fires (e : Env) (o : MseDecoder)
    (start0 end0 : Q) (ranges : list (Q * Q)) :
  5 < stalledCounter o ->
  buffered (tag e) = (start0, end0) :: ranges ->
  recoverStalled e o =
    (set_stalledCounter 0
       (set_seekedListeners (S (seekedListeners o)) (set_isSeeking true o)),
     [ConsoleWarn; AddSeekedListener; SetCurrentTime end0]).
Proof.
  intros Hover Hranges. unfold recoverStalled.
  apply Z.ltb_lt in Hover. rewrite Hover, Hranges. reflexivity.
Qed.

(** The counting step in the normal state, on a stalled observation. *)
Lemma countStalled_stalled (o : MseDecoder) (m : MomentumStats.t) :
  momentumQualityStats (super o) = Some m ->
  isStalled m = true ->
  isSeeking o = false ->
  fst (countStalled o) = set_stalledCounter (stalledCounter o + 1) o.
Proof.
  intros Hm Hstalled Hnormal. unfold countStalled, update. cbn.
  rewrite Hm, Hnormal, Hstalled. reflexivity.
Qed.

Lemma countStalled_seeking (o : MseDecoder) :
  isSeeking o = true -> fst (countStalled o) = o.
Proof.
  intros Hseeking. unfold countStalled, update. cbn.
  rewrite Hseeking. destruct (momentumQualityStats (super o)); reflexivity.
Qed.

Lemma observesStall_momentum (frame : Frame) (e : Env) (o : MseDecoder) :
  observesStall frame e o = true ->
  exists m,
    momentumQualityStats (super (fst (Decoder_pushFrame frame e o))) = Some m /\
    isStalled m = true.
Proof.
  unfold observesStall.
  destruct (momentumQualityStats _) as [m|]; [|discriminate].
  intros H. exists m. split; [reflexivity | exact H].
Qed.

(** A stalled observation in the normal state below the threshold: the
    counter goes up by one and nothing is sought. *)
Lemma pushFrame_stalled_counts (frame : Frame) (e : Env) (o : MseDecoder) :
  isSeeking o = false ->
  observesStall frame e o = true ->
  stalledCounter o + 1 <= 5 \/ buffered (tag e) = [] ->
  stalledCounter (fst (pushFrame frame e o)) = stalledCounter o + 1 /\
  isSeeking (fst (pushFrame frame e o)) = false /\
  seeks (snd (pushFrame frame e o)) = [].
Proof.
  intros Hnormal Hobs Hguard.
  destruct (observesStall_momentum frame e o Hobs) as [m [Hm Hstalled]].
  destruct (Decoder_pushFrame_frame frame e o) as [Hc Hs].
  rewrite pushFrame_seeks, pushFrame_phases. cbv zeta. cbn [fst].
  remember (fst (Decoder_pushFrame frame e o)) as o1 eqn:Ho1. clear Ho1.
  rewrite (countStalled_stalled o1 m Hm Hstalled) by congruence.
  rewrite recoverStalled_idle by (cbn; rewrite Hc; exact Hguard).
  cbn. repeat split; congruence.
Qed.

(** A stalled observation in the normal state that takes the counter over
    the threshold while something is buffered: one seek to the end of the
    first buffered range, the counter back at 0, the flag set. *)
Lemma pushFrame_stalled_fires (frame : Frame) (e : Env) (o : MseDecoder)
    (start0 end0 : Q) (ranges : list (Q * Q)) :
  isSeeking o = false ->
  observesStall frame e o = true ->
  5 < stalledCounter o + 1 ->
  buffered (tag e) = (start0, end0) :: ranges ->
  stalledCounter (fst (pushFrame frame e o)) = 0 /\
  isSeeking (fst (pushFrame frame e o)) = true /\
  seeks (snd (pushFrame frame e o)) = [end0].
Proof.
  intros Hnormal Hobs Hover Hranges.
  destruct (observesStall_momentum frame e o Hobs) as [m [Hm Hstalled]].
  destruct (Decoder_pushFrame_frame frame e o) as [Hc Hs].
  rewrite pushFrame_seeks, pushFrame_phases. cbv zeta. cbn [fst].
  remember (fst (Decoder_pushFrame frame e o)) as o1 eqn:Ho1. clear Ho1.
  rewrite (countStalled_stalled o1 m Hm Hstalled) by congruence.
  rewrite (recoverStalled_fires e _ start0 end0 ranges)
    by (first [exact Hranges | cbn; rewrite Hc; exact Hover]).
  cbn. repeat split.
Qed.

(** While a seek is in flight and the counter is at 0, a push changes
    neither and seeks nothing. *)
Lemma pushFrame_seek_in_flight (frame : Frame) (e : Env) (o : MseDecoder) :
  isSeeking o = true ->
  stalledCounter o = 0 ->
  isSeeking (fst (pushFrame frame e o)) = true /\
  stalledCounter (fst (pushFrame frame e o)) = 0 /\
  seeks (snd (pushFrame frame e o)) = [].
Proof.
  intros Hseeking Hzero.
  destruct (Decoder_pushFrame_frame frame e o) as [Hc Hs].
  rewrite pushFrame_seeks, pushFrame_phases. cbv zeta. cbn [fst].
  remember (fst (Decoder_pushFrame frame e o)) as o1 eqn:Ho1. clear Ho1.
  rewrite (countStalled_seeking o1) by congruence.
  rewrite recoverStalled_idle by (left; lia).
  cbn. repeat split; congruence.
Qed.

(** A push that seeks leaves the flag set and the counter at 0. *)
Lemma pushFrame_sought (frame : Frame) (e : Env) (o : MseDecoder) :
  seeks (snd (pushFrame frame e o)) <> [] ->
  isSeeking (fst (pushFrame frame e o)) = true /\
  stalledCounter (fst (pushFrame frame e o)) = 0.
Proof.
  rewrite pushFrame_seeks, pushFrame_phases. cbv zeta. cbn [fst].
  set (o2 := fst (countStalled (fst (Decoder_pushFrame frame e o)))).
  unfold recoverStalled.
  destruct (5 <? stalledCounter o2); [|intros H; now elim H].
  destruct (buffered (tag e)) as [|[start0 end0] ranges];
    [intros H; now elim H|].
  intros _. cbn. split; reflexivity.
Qed.

(** ** Runs of pushes *)

Lemma pushFrames_app (ps qs : list (Frame * Env)) (o : MseDecoder) :
  pushFrames (ps ++ qs) o =
    (fst (pushFrames qs (fst (pushFrames ps o))),
     snd (pushFrames ps o) ++ snd (pushFrames qs (fst (pushFrames ps o)))).
Proof.
  revert o. induction ps as [|[frame e] ps IH]; intros o.
  - cbn. destruct (pushFrames qs o). reflexivity.
  - cbn [app pushFrames]. unfold andThen.
    destruct (pushFrame frame e o) as [o1 t1].
    rewrite IH.
    destruct (pushFrames ps o1) as [o2 t2]. cbn [fst snd].
    destruct (pushFrames qs o2) as [o3 t3]. cbn [fst snd].
    rewrite app_assoc. reflexivity.
Qed.

Lemma pushFrames_single (frame : Frame) (e : Env) (o : MseDecoder) :
  pushFrames [(frame, e)] o = pushFrame frame e o.
Proof.
  cbn [pushFrames]. unfold andThen, skip.
  destruct (pushFrame frame e o) as [o1 t1].
  rewrite app_nil_r. reflexivity.
Qed.

Lemma stalledRun_app (ps qs : list (Frame * Env)) (o : MseDecoder) :
  stalledRun (ps ++ qs) o =
  stalledRun ps o && stalledRun qs (fst (pushFrames ps o)).
Proof.
  revert o. induction ps as [|[frame e] ps IH]; intros o.
  - reflexivity.
  - cbn [app stalledRun pushFrames]. rewrite IH. unfold andThen.
    destruct (pushFrame frame e o) as [o1 t1]. cbn [fst].
    destruct (pushFrames ps o1) as [o2 t2]. cbn [fst].
    rewrite andb_assoc. reflexivity.
Qed.

(** A run of stalled observations that stays at or below the threshold
    counts every one of them and seeks nothing. *)
Lemma stalledRun_counts (ps : list (Frame * Env)) (o : MseDecoder) :
  isSeeking o = false ->
  stalledRun ps o = true ->
  stalledCounter o + Z.of_nat (length ps) <= 5 ->
  stalledCounter (fst (pushFrames ps o)) = stalledCounter o + Z.of_nat (length ps) /\
  isSeeking (fst (pushFrames ps o)) = false /\
  seeks (snd (pushFrames ps o)) = [].
Proof.
  revert o. induction ps as [|[frame e] ps IH]; intros o Hnormal Hrun Hbound.
  - cbn. repeat split; [lia | exact Hnormal].
  - cbn [stalledRun] in Hrun. apply andb_true_iff in Hrun.
    destruct Hrun as [Hobs Hrun].
    cbn [length] in Hbound. rewrite Nat2Z.inj_succ in Hbound.
    destruct (pushFrame_stalled_counts frame e o Hnormal Hobs)
      as [Hc [Hs Ht]]; [left; lia|].
    cbn [pushFrames]. unfold andThen.
    destruct (pushFrame frame e o) as [o1 t1]. cbn [fst snd] in *.
    specialize (IH o1 Hs Hrun).
    destruct (pushFrames ps o1) as [o2 t2]. cbn [fst snd] in *.
    destruct IH as [Hc2 [Hs2 Ht2]]; [lia|].
    rewrite seeks_app, Ht, Ht2. cbn [length]. rewrite Nat2Z.inj_succ.
    repeat split; [lia | exact Hs2].
Qed.

(** While a seek is in flight no run of pushes seeks. *)
Lemma pushFrames_seek_in_flight (ps : list (Frame * Env)) (o : MseDecoder) :
  isSeeking o = true ->
  stalledCounter o = 0 ->
  seeks (snd (pushFrames ps o)) = [] /\
  isSeeking (fst (pushFrames ps o)) = true /\
  stalledCounter (fst (pushFrames ps o)) = 0.
Proof.
  revert o. induction ps as [|[frame e] ps IH]; intros o Hseeking Hzero.
  - cbn. repeat split; assumption.
  - destruct (pushFrame_seek_in_flight frame e o Hseeking Hzero)
      as [Hs [Hc Ht]].
    cbn [pushFrames]. unfold andThen.
    destruct (pushFrame frame e o) as [o1 t1]. cbn [fst snd] in *.
    specialize (IH o1 Hs Hc).
    destruct (pushFrames ps o1) as [o2 t2]. cbn [fst snd] in *.
    rewrite seeks_app, Ht. exact IH.
Qed.

Lemma pushFrames_cons (frame : Frame) (e : Env) (ps : list (Frame * Env))
    (o : MseDecoder) :
  pushFrames ((frame, e) :: ps) o =
    (fst (pushFrames ps (fst (pushFrame frame e o))),
     snd (pushFrame frame e o) ++ snd (pushFrames ps (fst (pushFrame frame e o)))).
Proof.
  cbn [pushFrames]. unfold andThen.
  destruct (pushFrame frame e o) as [o1 t1]. cbn [fst snd].
  destruct (pushFrames ps o1) as [o2 t2]. reflexivity.
Qed.

(** The guard of the recovery, by cases. *)
Lemma stalled_push_cases (e : Env) (o : MseDecoder) :
  (stalledCounter o + 1 <= 5 \/ buffered (tag e) = []) \/
  (5 < stalledCounter o + 1 /\ buffered (tag e) <> []).
Proof.
  destruct (buffered (tag e)); [left; right; reflexivity|].
  destruct (Z_le_gt_dec (stalledCounter o + 1) 5);
    [left; left; assumption | right; split; [lia | discriminate]].
Qed.

(** A run of stalled observations that starts in the normal state either
    counts every one of them and seeks nothing, or seeks exactly once: at
    the first push that finds the counter over the threshold and something
    buffered; from there on the seek is in flight. *)
Lemma stalledRun_seeks_at_most_once (ps : list (Frame * Env)) (o : MseDecoder) :
  isSeeking o = false ->
  stalledRun ps o = true ->
  (seeks (snd (pushFrames ps o)) = [] /\
   isSeeking (fst (pushFrames ps o)) = false /\
   stalledCounter (fst (pushFrames ps o)) = stalledCounter o + Z.of_nat (length ps))
  \/
  (exists before frame e after start0 end0 ranges,
     ps = before ++ (frame, e) :: after /\
     buffered (tag e) = (start0, end0) :: ranges /\
     seeks (snd (pushFrames before o)) = [] /\
     seeks (snd (pushFrame frame e (fst (pushFrames before o)))) = [end0] /\
     stalledCounter (fst (pushFrame frame e (fst (pushFrames before o)))) = 0 /\
     seeks (snd (pushFrames ps o)) = [end0] /\
     isSeeking (fst (pushFrames ps o)) = true /\
     stalledCounter (fst (pushFrames ps o)) = 0).
Proof.
  revert o. induction ps as [|[frame e] ps IH]; intros o Hnormal Hrun.
  - left. cbn. repeat split; [exact Hnormal | lia].
  - cbn [stalledRun] in Hrun. apply andb_true_iff in Hrun.
    destruct Hrun as [Hobs Hrun].
    rewrite pushFrames_cons. cbn [fst snd].
    destruct (stalled_push_cases e o) as [Hidle | [Hover Hranges]].
    + destruct (pushFrame_stalled_counts frame e o Hnormal Hobs Hidle)
        as [Hc [Hs Ht]].
      destruct (IH (fst (pushFrame frame e o)) Hs Hrun)
        as [[Ht2 [Hs2 Hc2]]
           | [before [f1 [e1 [after [start0 [end0 [ranges
               [Hsplit [Hbuf [Htb [Htf [Hcf [Htall [Hsall Hcall]]]]]]]]]]]]]]].
      * left. rewrite seeks_app, Ht, Ht2. cbn [length].
        rewrite Nat2Z.inj_succ. repeat split; [exact Hs2 | lia].
      * right.
        exists ((frame, e) :: before), f1, e1, after, start0, end0, ranges.
        rewrite pushFrames_cons. cbn [fst snd].
        rewrite !seeks_app, Ht, Htb, Htall. cbn [app].
        split; [rewrite Hsplit; reflexivity|].
        repeat split; assumption.
    + destruct (buffered (tag e)) as [|[start0 end0] ranges] eqn:Hbuf;
        [now elim Hranges|].
      destruct (pushFrame_stalled_fires frame e o start0 end0 ranges
                  Hnormal Hobs Hover Hbuf) as [Hc [Hs Ht]].
      destruct (pushFrames_seek_in_flight ps (fst (pushFrame frame e o)) Hs Hc)
        as [Ht2 [Hs2 Hc2]].
      right. exists [], frame, e, ps, start0, end0, ranges.
      cbn [fst snd app pushFrames skip].
      rewrite seeks_app, Ht, Ht2.
      repeat split; assumption.
Qed.

(** C1, as the code has it.  In the normal state, over six consecutive
    pushes that each observe a stall, the sixth with at least one buffered
    range, exactly one forced seek is requested; it goes to the end of a
    buffered range reported at the push that requests it, and right after
    that push the counter is 0.  When the run starts with the counter at 0
    the seek is requested by the sixth push: five stalled observations do
    not suffice. *)
Theorem six_stalled_pushes_seek_once
    (ps : list (Frame * Env)) (frame : Frame) (e : Env) (o : MseDecoder) :
  isSeeking o = false ->
  0 <= stalledCounter o ->
  length ps = 5%nat ->
  stalledRun (ps ++ [(frame, e)]) o = true ->
  buffered (tag e) <> [] ->
  exists before frame1 e1 after position,
    ps ++ [(frame, e)] = before ++ (frame1, e1) :: after /\
    In position (map snd (buffered (tag e1))) /\
    seeks (snd (pushFrames before o)) = [] /\
    seeks (snd (pushFrame frame1 e1 (fst (pushFrames before o)))) = [position] /\
    stalledCounter (fst (pushFrame frame1 e1 (fst (pushFrames before o)))) = 0 /\
    seeks (snd (pushFrames (ps ++ [(frame, e)]) o)) = [position] /\
    length (seeks (snd (pushFrames (ps ++ [(frame, e)]) o))) = 1%nat /\
    (stalledCounter o = 0 -> before = ps /\ after = []).
Proof.
  intros Hnormal Hnonneg Hlen Hrun Hbuffered.
  rewrite stalledRun_app in Hrun. apply andb_true_iff in Hrun.
  destruct Hrun as [Hfive Hsixth].
  cbn [stalledRun] in Hsixth. rewrite andb_true_r in Hsixth.
  rewrite pushFrames_app, pushFrames_single. cbn [fst snd].
  destruct (stalledRun_seeks_at_most_once ps o Hnormal Hfive)
    as [[Ht [Hs Hc]]
       | [before [f1 [e1 [after [start0 [end0 [ranges
           [Hsplit [Hbuf [Htb [Htf [Hcf [Htall [Hsall Hcall]]]]]]]]]]]]]]].
  - destruct (buffered (tag e)) as [|[start0 end0] ranges] eqn:Hranges;
      [now elim Hbuffered|].
    rewrite Hlen in Hc.
    destruct (pushFrame_stalled_fires frame e (fst (pushFrames ps o))
                start0 end0 ranges Hs Hsixth) as [Hc6 [Hs6 Ht6]];
      [lia | exact Hranges |].
    exists ps, frame, e, [], end0.
    rewrite seeks_app, Ht, Ht6, Hranges.
    split; [reflexivity|]. split; [left; reflexivity|].
    repeat split; assumption.
  - destruct (pushFrame_seek_in_flight frame e (fst (pushFrames ps o)) Hsall Hcall)
      as [_ [_ Ht6]].
    exists before, f1, e1, (after ++ [(frame, e)]), end0.
    rewrite seeks_app, Htall, Ht6, Hbuf.
    split; [rewrite Hsplit, <- app_assoc; reflexivity|].
    split; [left; reflexivity|].
    do 5 (split; [assumption || reflexivity|]).
    intros Hzero. exfalso.
    (* from the counter at 0, five stalled pushes cannot seek *)
    destruct (stalledRun_counts ps o Hnormal Hfive) as [_ [_ Hnone]];
      [rewrite Hlen; lia|].
    rewrite Htall in Hnone. discriminate.
Qed.

(** C2.  From the counter at 0 with no seek in flight, three consecutive
    pushes that each observe a stall take the counter to 3 and request no
    seek; two more take it no further than 5, still without a seek; the
    sixth, pushed while something is buffered, requests the recovery seek
    and leaves the counter at 0. *)
Theorem stalled_scenario
    (first3 next2 : list (Frame * Env)) (frame : Frame) (e : Env) (o : MseDecoder) :
  isSeeking o = false ->
  stalledCounter o = 0 ->
  length first3 = 3%nat ->
  length next2 = 2%nat ->
  stalledRun (first3 ++ next2 ++ [(frame, e)]) o = true ->
  buffered (tag e) <> [] ->
  let o3 := fst (pushFrames first3 o) in
  let o5 := fst (pushFrames (first3 ++ next2) o) in
  stalledCounter o3 = 3 /\
  seeks (snd (pushFrames first3 o)) = [] /\
  isSeeking o3 = false /\
  seeks (snd (pushFrames (first3 ++ next2) o)) = [] /\
  seeks (snd (pushFrame frame e o5)) <> [] /\
  stalledCounter (fst (pushFrame frame e o5)) = 0.
Proof.
  intros Hnormal Hzero Hlen3 Hlen2 Hrun Hbuffered o3 o5. subst o3 o5.
  destruct (buffered (tag e)) as [|[start0 end0] ranges] eqn:Hranges;
    [now elim Hbuffered|].
  rewrite app_assoc, stalledRun_app in Hrun. apply andb_true_iff in Hrun.
  destruct Hrun as [Hfive Hsixth].
  cbn [stalledRun] in Hsixth. rewrite andb_true_r in Hsixth.
  pose proof Hfive as Hthree. rewrite stalledRun_app in Hthree.
  apply andb_true_iff in Hthree. destruct Hthree as [Hthree _].
  destruct (stalledRun_counts first3 o Hnormal Hthree) as [Hc3 [Hs3 Ht3]];
    [rewrite Hlen3; lia|].
  destruct (stalledRun_counts (first3 ++ next2) o Hnormal Hfive)
    as [Hc5 [Hs5 Ht5]]; [rewrite length_app, Hlen3, Hlen2; cbn; lia|].
  rewrite length_app, Hlen3, Hlen2, Hzero in Hc5. cbn in Hc5.
  destruct (pushFrame_stalled_fires frame e (fst (pushFrames (first3 ++ next2) o))
              start0 end0 ranges Hs5 Hsixth) as [Hc6 [Hs6 Ht6]];
    [lia | exact Hranges |].
  rewrite Hlen3, Hzero in Hc3.
  repeat split; try assumption.
  rewrite Ht6. discriminate.
Qed.

(** C4.  Once a push has requested a recovery seek, no run of further
    pushes, whatever they observe, requests another one: the flag stays set
    and the counter stays at 0 until ['seeked'] is delivered. *)
Theorem no_seek_while_seeking
    (frame : Frame) (e : Env) (o : MseDecoder) (ps : list (Frame * Env)) :
  seeks (snd (pushFrame frame e o)) <> [] ->
  let o' := fst (pushFrame frame e o) in
  seeks (snd (pushFrames ps o')) = [] /\
  isSeeking (fst (pushFrames ps o')) = true /\
  stalledCounter (fst (pushFrames ps o')) = 0.
Proof.
  intros Hsought o'. subst o'.
  destruct (pushFrame_sought frame e o Hsought) as [Hseeking Hzero].
  apply pushFrames_seek_in_flight; assumption.
Qed.

(** ** The buffer trim *)

Lemma Qltb_lt (a b : Q) : Qltb a b = true <-> (a < b)%Q.
Proof.
  unfold Qltb. rewrite Qlt_alt.
  destruct (a ?= b)%Q; split; intros H; congruence.
Qed.

(** On the times a media element can report, [| 0] is the floor. *)
Lemma ToInt32_floor (x : Q) :
  (0 <= x)%Q -> (x < inject_Z (2 ^ 31))%Q -> ToInt32 x = Qfloor x.
Proof.
  destruct x as [n d]. unfold Qle, Qlt, ToInt32, truncate, Qfloor. cbn.
  intros Hnonneg Hsmall.
  assert (Hn : 0 <= n) by lia.
  rewrite Z.quot_div_nonneg by lia.
  assert (Hlow : 0 <= n / Z.pos d) by (apply Z.div_pos; lia).
  assert (Hhigh : n / Z.pos d < 2147483648).
  { apply Z.div_lt_upper_bound; lia. }
  rewrite Z.mod_small by lia.
  destruct (2147483648 <=? n / Z.pos d) eqn:Hcmp; [|reflexivity].
  apply Z.leb_le in Hcmp. lia.
Qed.

Lemma removals_app (t1 t2 : list Request) :
  removals (t1 ++ t2) = removals t1 ++ removals t2.
Proof.
  induction t1 as [|r t1 IH]; simpl; [reflexivity|].
  destruct r; simpl; rewrite IH; reflexivity.
Qed.

Lemma recoverStalled_removals (e : Env) (o : MseDecoder) :
  removals (snd (recoverStalled e o)) = [].
Proof.
  unfold recoverStalled.
  destruct (5 <? stalledCounter o); [|reflexivity].
  destruct (buffered (tag e)) as [|[start0 end0] ranges]; reflexivity.
Qed.

Lemma Decoder_pushFrame_converter (frame : Frame) (e : Env) (o : MseDecoder) :
  converter (fst (Decoder_pushFrame frame e o)) = converter o.
Proof.
  unfold Decoder_pushFrame, update. cbn.
  match goal with
  | |- context [calculateMomentumStats e ?x] =>
      destruct (calculateMomentumStats_frame e x) as [_ [_ [Hconv _]]]
  end.
  exact Hconv.
Qed.

(** C5, as the code has it.  A key frame pushed to a decoder with a converter, while the first
    buffered range [start, end) of the element has [0 <= start],
    [end < 2^31] and [start < floor end], sends the removal of exactly
    [start, floor end] first and the append of the frame right after it, and
    no other removal; a frame that is not a key frame sends no removal. *)
Theorem key_frame_trims_first_range
    (frame : Frame) (e : Env) (o : MseDecoder) :
  (forall c start0 end0 ranges,
     isIFrame frame = true ->
     converter o = Some c ->
     buffered (tag e) = (start0, end0) :: ranges ->
     (0 <= start0)%Q ->
     (end0 < inject_Z (2 ^ 31))%Q ->
     (start0 < inject_Z (Qfloor end0))%Q ->
     exists rest,
       snd (pushFrame frame e o) =
         SourceBufferRemove start0 (Qfloor end0) :: AppendRawData frame :: rest /\
       removals rest = []) /\
  (isIFrame frame = false -> removals (snd (pushFrame frame e o)) = []).
Proof.
  split.
  - intros c start0 end0 ranges Hkey Hconv Hranges Hstart Hend Hlt.
    rewrite pushFrame_phases. cbv zeta. cbn [snd].
    exists (snd (recoverStalled e
                   (fst (countStalled (fst (Decoder_pushFrame frame e o)))))).
    split; [|apply recoverStalled_removals].
    unfold appendFrame. rewrite Decoder_pushFrame_converter, Hconv, Hkey, Hranges.
    cbn [trimRange].
    assert (Hend0 : (0 <= end0)%Q).
    { apply Qle_trans with (inject_Z (Qfloor end0)); [|apply Qfloor_le].
      apply Qle_trans with start0; [exact Hstart | apply Qlt_le_weak; exact Hlt]. }
    rewrite (ToInt32_floor end0 Hend0 Hend).
    assert (Hpos : (0 < inject_Z (Qfloor end0))%Q)
      by (apply Qle_lt_trans with start0; assumption).
    change 0%Q with (inject_Z 0) in Hpos. rewrite <- Zlt_Qlt in Hpos.
    assert (Hnz : (Qfloor end0 =? 0) = false) by (apply Z.eqb_neq; lia).
    rewrite Hnz. apply Qltb_lt in Hlt. rewrite Hlt. reflexivity.
  - intros Hother.
    rewrite pushFrame_phases. cbv zeta. cbn [snd].
    rewrite removals_app, recoverStalled_removals, app_nil_r.
    unfold appendFrame. destruct (converter _); [|reflexivity].
    rewrite Hother. reflexivity.
Qed.

(** ** Resetting the statistics *)

(** A recomputation on an empty quality window differences the new sample
    against itself. *)
Lemma calculateMomentumStats_empty_window
    (e : Env) (o : MseDecoder) (stat : QualityStats.t) :
  getVideoPlaybackQuality e = Some stat ->
  nowMomentum e - 1000 <= nowQuality e ->
  videoStats o = [] ->
  videoStats (calculateMomentumStats e o) = [stat] /\
  exists m,
    momentumQualityStats (super (calculateMomentumStats e o)) = Some m /\
    MomentumStats.decodedFrames m = 0 /\
    MomentumStats.droppedFrames m = 0.
Proof.
  intros Hstat Hclock Hempty.
  assert (Hfresh : (QualityStats.timestamp stat <? nowMomentum e - 1000) = false).
  { apply Z.ltb_ge.
    rewrite (getVideoPlaybackQuality_timestamp e stat Hstat). exact Hclock. }
  unfold calculateMomentumStats. rewrite Hstat. cbv zeta. rewrite Hempty.
  cbn [app shiftOlder]. rewrite Hfresh.
  split; [reflexivity|].
  eexists. split; [reflexivity|]. cbn. split; lia.
Qed.

(** C9, as the code has it.  After [resetStats()] the quality window is empty.  The first push
    after it whose sampler has counters (the clock advancing by no more than
    the horizon between sampling and recomputation) leaves the new sample
    alone in the window and sets a momentum whose [decodedFrames] and
    [droppedFrames] are both 0.  If its [inputFrames] is positive and no
    seek is in flight, this observation is a stalled one: the counting step
    of that push adds one to the counter, and the push ends with the counter
    one higher unless the recovery fires on it. *)
Theorem first_observation_after_reset
    (frame : Frame) (e : Env) (o : MseDecoder) (stat : QualityStats.t) :
  getVideoPlaybackQuality e = Some stat ->
  nowMomentum e - 1000 <= nowQuality e ->
  let o0 := fst (resetStats o) in
  let o1 := fst (Decoder_pushFrame frame e o0) in
  videoStats o0 = [] /\
  videoStats o1 = [stat] /\
  exists m,
    momentumQualityStats (super o1) = Some m /\
    MomentumStats.decodedFrames m = 0 /\
    MomentumStats.droppedFrames m = 0 /\
    (0 < MomentumStats.inputFrames m ->
     isSeeking o = false ->
     observesStall frame e o0 = true /\
     stalledCounter (fst (countStalled o1)) = stalledCounter o + 1 /\
     (stalledCounter o + 1 <= 5 \/ buffered (tag e) = [] ->
      stalledCounter (fst (pushFrame frame e o0)) = stalledCounter o + 1)).
Proof.
  intros Hstat Hclock. cbv zeta.
  assert (Ho0 : videoStats (fst (resetStats o)) = []) by reflexivity.
  assert (Hc0 : stalledCounter (fst (resetStats o)) = stalledCounter o)
    by reflexivity.
  assert (Hs0 : isSeeking (fst (resetStats o)) = isSeeking o) by reflexivity.
  remember (fst (resetStats o)) as r eqn:Hr. clear Hr.
  split; [exact Ho0|].
  destruct (Decoder_pushFrame_frame frame e r) as [Hc1 Hs1].
  assert (Hwindow :
            videoStats (fst (Decoder_pushFrame frame e r)) = [stat] /\
            exists m,
              momentumQualityStats (super (fst (Decoder_pushFrame frame e r)))
                = Some m /\
              MomentumStats.decodedFrames m = 0 /\
              MomentumStats.droppedFrames m = 0).
  { unfold Decoder_pushFrame, update. cbn [fst].
    apply calculateMomentumStats_empty_window; assumption. }
  destruct Hwindow as [Hvs [m [Hm [Hdecoded Hdropped]]]].
  split; [exact Hvs|].
  exists m. split; [exact Hm|]. split; [exact Hdecoded|].
  split; [exact Hdropped|].
  intros Hinput Hnormal.
  assert (Hstalled : isStalled m = true).
  { unfold isStalled. rewrite Hdecoded. apply Z.ltb_lt in Hinput.
    rewrite Hinput. reflexivity. }
  assert (Hobs : observesStall frame e r = true).
  { unfold observesStall. rewrite Hm. exact Hstalled. }
  split; [exact Hobs|].
  remember (fst (Decoder_pushFrame frame e r)) as o1 eqn:Ho1.
  split.
  - rewrite (countStalled_stalled o1 m Hm Hstalled) by congruence.
    cbn. lia.
  - intros Hguard.
    destruct (pushFrame_stalled_counts frame e r) as [Hc _].
    + congruence.
    + exact Hobs.
    + rewrite Hc0. exact Hguard.
    + rewrite Hc, Hc0. reflexivity.
Qed.

(** ** Arrival order along an execution

    With a clock that never goes back, the two windows stay in arrival
    order from push to push, so the premise of the eviction theorem holds at
    every recomputation of an execution. *)

Section ArrivalOrder.

Context {A : Type} (timestamp : A -> Z).

Lemma arrivalOrder_append (w : list A) (latest : A) :
  arrivalOrder timestamp w ->
  Forall (fun s => timestamp s <= timestamp latest) w ->
  arrivalOrder timestamp (w ++ [latest]).
Proof.
  unfold arrivalOrder. intros Hsorted Hbound.
  induction Hsorted as [|first w Hw IH Hhd]; simpl.
  - repeat constructor.
  - inversion Hbound as [|? ? Hfirst Hrest]; subst.
    constructor; [apply IH; exact Hrest|].
    destruct w as [|second w]; simpl; constructor.
    + exact Hfirst.
    + inversion Hhd; assumption.
Qed.

Lemma arrivalOrder_back (front back : list A) :
  arrivalOrder timestamp (front ++ back) -> arrivalOrder timestamp back.
Proof.
  unfold arrivalOrder. induction front as [|first front IH]; simpl.
  - trivial.
  - intros H. apply IH. inversion H; assumption.
Qed.

Lemma shiftOlder_arrivalOrder_kept (horizon : Z) (w : list A) :
  arrivalOrder timestamp w ->
  arrivalOrder timestamp (shiftOlder timestamp horizon w).
Proof.
  intros Hsorted.
  destruct (shiftOlder_front timestamp horizon w) as [front [Heq _]].
  rewrite Heq in Hsorted. exact (arrivalOrder_back front _ Hsorted).
Qed.

Lemma shiftOlder_Forall (P : A -> Prop) (horizon : Z) (w : list A) :
  Forall P w -> Forall P (shiftOlder timestamp horizon w).
Proof.
  intros Hall.
  destruct (shiftOlder_front timestamp horizon w) as [front [Heq _]].
  rewrite Heq in Hall. apply Forall_app in Hall. apply Hall.
Qed.

End ArrivalOrder.

Lemma Forall_le_trans {A : Type} (timestamp : A -> Z) (a b : Z) (w : list A) :
  a <= b ->
  Forall (fun s => timestamp s <= a) w -> Forall (fun s => timestamp s <= b) w.
Proof.
  intros Hab Hall. eapply Forall_impl; [|exact Hall]. simpl. intros s Hs. lia.
Qed.

Lemma countStalled_videoStats (o : MseDecoder) :
  videoStats (fst (countStalled o)) = videoStats o.
Proof.
  unfold countStalled, update. cbn.
  destruct (momentumQualityStats (super o)) as [m|]; [|reflexivity].
  destruct (isSeeking o); [reflexivity|].
  destruct (isStalled m); reflexivity.
Qed.

Lemma recoverStalled_videoStats (e : Env) (o : MseDecoder) :
  videoStats (fst (recoverStalled e o)) = videoStats o.
Proof.
  unfold recoverStalled.
  destruct (5 <? stalledCounter o); [|reflexivity].
  destruct (buffered (tag e)) as [|[start0 end0] ranges]; reflexivity.
Qed.

(** One push with clock readings in order keeps the windows in arrival
    order. *)
Lemma pushFrame_windowsUpTo (frame : Frame) (e : Env) (o : MseDecoder) (clock : Z) :
  windowsUpTo clock o ->
  clock <= nowInput e ->
  nowInput e <= nowQuality e ->
  nowQuality e <= nowMomentum e ->
  windowsUpTo (nowMomentum e) (fst (pushFrame frame e o)).
Proof.
  intros [Hvs [Hib [Hvsb Hibb]]] Hc1 Hc2 Hc3.
  unfold windowsUpTo.
  rewrite pushFrame_phases. cbv zeta. cbn [fst].
  rewrite recoverStalled_super, countStalled_super.
  rewrite recoverStalled_videoStats, countStalled_videoStats.
  unfold Decoder_pushFrame, update. cbn [fst].
  set (sample := InputSample.mk (nowInput e) (byteLength frame)).
  set (o1 := set_super (set_inputBytes (inputBytes (super o) ++ [sample]) (super o)) o).
  assert (Hib1 : arrivalOrder InputSample.timestamp (inputBytes (super o1))).
  { apply arrivalOrder_append; [exact Hib|].
    apply (Forall_le_trans InputSample.timestamp clock); assumption. }
  assert (Hibb1 : Forall (fun s => InputSample.timestamp s <= nowMomentum e)
                    (inputBytes (super o1))).
  { apply Forall_app. split.
    - apply (Forall_le_trans InputSample.timestamp clock); [lia | exact Hibb].
    - constructor; [cbn; lia | constructor]. }
  destruct (getVideoPlaybackQuality e) as [stat|] eqn:Hstat.
  - destruct (calculateMomentumStats_windows e o1 stat Hstat) as [Hw1 Hw2].
    rewrite Hw1, Hw2.
    pose proof (getVideoPlaybackQuality_timestamp e stat Hstat) as Hts.
    assert (Hvs1 : arrivalOrder QualityStats.timestamp (videoStats o ++ [stat])).
    { apply arrivalOrder_append; [exact Hvs|].
      apply (Forall_le_trans QualityStats.timestamp clock); [lia | exact Hvsb]. }
    assert (Hvsb1 : Forall (fun s => QualityStats.timestamp s <= nowMomentum e)
                      (videoStats o ++ [stat])).
    { apply Forall_app. split.
      - apply (Forall_le_trans QualityStats.timestamp clock); [lia | exact Hvsb].
      - constructor; [lia | constructor]. }
    repeat split.
    + apply shiftOlder_arrivalOrder_kept. exact Hvs1.
    + apply shiftOlder_arrivalOrder_kept. exact Hib1.
    + apply shiftOlder_Forall. exact Hvsb1.
    + apply shiftOlder_Forall. exact Hibb1.
  - unfold calculateMomentumStats. rewrite Hstat.
    repeat split; try assumption.
    apply (Forall_le_trans QualityStats.timestamp clock); [lia | exact Hvsb].
Qed.

(** The counter never goes below 0. *)
Lemma pushFrame_counter_nonneg (frame : Frame) (e : Env) (o : MseDecoder) :
  0 <= stalledCounter o -> 0 <= stalledCounter (fst (pushFrame frame e o)).
Proof.
  intros Hnonneg.
  destruct (Decoder_pushFrame_frame frame e o) as [Hc _].
  rewrite pushFrame_phases. cbv zeta. cbn [fst].
  remember (fst (Decoder_pushFrame frame e o)) as o1 eqn:Ho1. clear Ho1.
  assert (Hcount : 0 <= stalledCounter (fst (countStalled o1))).
  { unfold countStalled, update. cbn [fst].
    destruct (momentumQualityStats (super o1)) as [m|]; [|lia].
    destruct (isSeeking o1); [cbn; lia|].
    destruct (isStalled m); cbn; lia. }
  remember (fst (countStalled o1)) as o2 eqn:Ho2. clear Ho2.
  unfold recoverStalled.
  destruct (5 <? stalledCounter o2); [|exact Hcount].
  destruct (buffered (tag e)) as [|[start0 end0] ranges]; [exact Hcount|].
  cbn. lia.
Qed.

(** ** The end of a seek *)

(** When ['seeked'] is delivered after a push that sought, the decoder is
    back in the normal state and no listener is left on the element. *)
Lemma onSeekEnd_resumes (frame : Frame) (e : Env) (o : MseDecoder) :
  seeks (snd (pushFrame frame e o)) <> [] ->
  isSeeking (fst (onSeekEnd (fst (pushFrame frame e o)))) = false /\
  seekedListeners (fst (onSeekEnd (fst (pushFrame frame e o)))) = O /\
  stalledCounter (fst (onSeekEnd (fst (pushFrame frame e o)))) = 0.
Proof.
  rewrite pushFrame_seeks, pushFrame_phases. cbv zeta. cbn [fst].
  remember (fst (countStalled (fst (Decoder_pushFrame frame e o)))) as o2.
  unfold recoverStalled.
  destruct (5 <? stalledCounter o2); [|intros H; now elim H].
  destruct (buffered (tag e)) as [|[start0 end0] ranges];
    [intros H; now elim H|].
  intros _. cbn. repeat split.
Qed.

(** ** Changing the frame rate *)

(** X24.  [setVideoSettings] with a [maxFps] other than the current one, on
    a decoder that has a converter, stops that converter (an empty append
    and a pause) and creates exactly one new converter, for the new rate:
    the [play()] of line 179 finds it in place and creates none.  The stall
    counter and the seek flag are what they were.  Lines 172-181 do not
    touch the quality window: after the call it is what it was, unless the
    base [setVideoSettings] of line 182 itself called [resetStats], which
    empties it. *)
Theorem setVideoSettings_new_rate
    (vs current : VideoSettings) (saveToStorage : bool)
    (c : VideoConverter) (o : MseDecoder) :
  videoSettings (super o) = Some current ->
  maxFps current <> maxFps vs ->
  converter o = Some c ->
  let r := setVideoSettings vs saveToStorage o in
  let c' := createConverter (maxFps vs) (fpf o) in
  let stopped := Decoder_stop (super o) in
  let resumed :=
    if STATE_eqb (state (super o)) PLAYING then Decoder_play stopped else stopped in
  converter (fst r) = Some c' /\
  creations (snd r) = [c'] /\
  stalledCounter (fst r) = stalledCounter o /\
  isSeeking (fst r) = isSeeking o /\
  videoStats (fst r) =
    (if snd (Decoder_setVideoSettings vs saveToStorage resumed)
     then [] else videoStats o) /\
  exists rest,
    snd r = AppendRawData [] :: ConverterPause :: CreateConverter c' :: rest /\
    (rest = [] \/ rest = [ConverterPlay]).
Proof.
  intros Hcurrent Hfps Hconv r c' stopped resumed.
  subst r c' stopped resumed.
  apply Z.eqb_neq in Hfps.
  unfold setVideoSettings, super_setVideoSettings, andThen, stop, stopConverter,
    play, resetStats, andThen, super_call, update, send, skip.
  rewrite Hcurrent, Hfps.
  repeat (first [rewrite Hconv | progress cbn]).
  destruct (STATE_eqb (state (super o)) PLAYING); cbn.
  - destruct (negb (STATE_eqb (state (Decoder_play (Decoder_stop (super o)))) PLAYING)
              || negb (screenInfo (Decoder_play (Decoder_stop (super o))))); cbn;
      destruct (Decoder_setVideoSettings vs saveToStorage
                  (Decoder_play (Decoder_stop (super o)))) as [d [|]]; cbn;
      do 5 (split; [reflexivity|]).
    1, 2: exists []; split; [reflexivity | left; reflexivity].
    1, 2: exists [ConverterPlay]; split; [reflexivity | right; reflexivity].
  - destruct (Decoder_setVideoSettings vs saveToStorage (Decoder_stop (super o)))
      as [d [|]]; cbn; do 5 (split; [reflexivity|]);
      exists []; (split; [reflexivity | left; reflexivity]).
Qed.

(** ** More on the eviction loop *)

Section Eviction.

Context {A : Type} (timestamp : A -> Z).

(** X1.  Whatever the order of the window, the loop takes off its longest
    front part of samples strictly older than the horizon: what it removes
    is a front part, all of it older, and the sample it stops at is not. *)
Theorem shiftOlder_longest_front (horizon : Z) (w : list A) :
  exists front,
    w = front ++ shiftOlder timestamp horizon w /\
    Forall (fun s => timestamp s < horizon) front /\
    (length (shiftOlder timestamp horizon w) <= length w)%nat /\
    match shiftOlder timestamp horizon w with
    | [] => True
    | oldest :: _ => horizon <= timestamp oldest
    end.
Proof.
  destruct (shiftOlder_front timestamp horizon w) as [front [Heq Hall]].
  exists front. split; [exact Heq|]. split; [exact Hall|]. split.
  - rewrite Heq at 2. rewrite length_app. lia.
  - apply shiftOlder_head.
Qed.

(** X2.  Evicting at a horizon and then at a later one leaves what evicting
    at the later one alone leaves, whatever the order of the window. *)
Theorem shiftOlder_later_horizon (h1 h2 : Z) (w : list A) :
  h1 <= h2 ->
  shiftOlder timestamp h2 (shiftOlder timestamp h1 w) = shiftOlder timestamp h2 w.
Proof.
  intros Hle. induction w as [|first rest IH]; [reflexivity|].
  cbn [shiftOlder].
  destruct (timestamp first <? h1) eqn:Hold.
  - apply Z.ltb_lt in Hold.
    assert (Hold2 : (timestamp first <? h2) = true) by (apply Z.ltb_lt; lia).
    rewrite Hold2. exact IH.
  - reflexivity.
Qed.

End Eviction.

Lemma Sorted_back {A : Type} (R : A -> A -> Prop) (front back : list A) :
  Sorted R (front ++ back) -> Sorted R back.
Proof.
  induction front as [|first front IH]; simpl; [trivial|].
  intros H. apply IH. inversion H; assumption.
Qed.

Lemma last_In {A : Type} (first d : A) (rest : list A) :
  rest <> [] -> In (last (first :: rest) d) rest.
Proof.
  revert first. induction rest as [|second rest IH]; intros first Hne;
    [now elim Hne|].
  destruct rest as [|third rest].
  - left. reflexivity.
  - right. apply (IH second). discriminate.
Qed.

(** X3.  When the counters of the quality window, the new sample included,
    never decrease, a recomputation that keeps the new sample sets a
    momentum whose [decodedFrames] and [droppedFrames] are not negative. *)
Theorem momentum_deltas_not_negative
    (e : Env) (o : MseDecoder) (stat : QualityStats.t) :
  getVideoPlaybackQuality e = Some stat ->
  nowMomentum e - 1000 <= nowQuality e ->
  countersNeverDecrease (videoStats o ++ [stat]) ->
  exists m,
    momentumQualityStats (super (calculateMomentumStats e o)) = Some m /\
    0 <= MomentumStats.decodedFrames m /\
    0 <= MomentumStats.droppedFrames m.
Proof.
  intros Hstat Hclock Hcounters.
  rewrite <- (getVideoPlaybackQuality_timestamp e stat Hstat) in Hclock.
  destruct (shiftOlder_keeps_latest QualityStats.timestamp (nowMomentum e - 1000)
              (videoStats o) stat Hclock) as [oldest [rest [Hvs Hlast]]].
  destruct (shiftOlder_front QualityStats.timestamp (nowMomentum e - 1000)
              (videoStats o ++ [stat])) as [front [Hsplit _]].
  rewrite Hvs in Hsplit. unfold countersNeverDecrease in Hcounters.
  rewrite Hsplit in Hcounters. apply Sorted_back in Hcounters.
  apply Sorted_StronglySorted in Hcounters;
    [|intros a b c [Hab1 Hab2] [Hbc1 Hbc2]; split; lia].
  assert (Hle : QualityStats.decodedFrames oldest <= QualityStats.decodedFrames stat /\
                QualityStats.droppedFrames oldest <= QualityStats.droppedFrames stat).
  { destruct rest as [|second rest].
    - cbn in Hlast. subst oldest. split; lia.
    - apply StronglySorted_inv in Hcounters. destruct Hcounters as [_ Hall].
      rewrite Forall_forall in Hall. apply Hall.
      rewrite <- Hlast. apply last_In. discriminate. }
  unfold calculateMomentumStats. rewrite Hstat. cbv zeta. rewrite Hvs.
  eexists. split; [reflexivity|]. cbn. lia.
Qed.

(** ** The requests of a push *)

Lemma appends_app (t1 t2 : list Request) :
  appends (t1 ++ t2) = appends t1 ++ appends t2.
Proof.
  induction t1 as [|r t1 IH]; simpl; [reflexivity|].
  destruct r; simpl; rewrite IH; reflexivity.
Qed.

Lemma creations_app (t1 t2 : list Request) :
  creations (t1 ++ t2) = creations t1 ++ creations t2.
Proof.
  induction t1 as [|r t1 IH]; simpl; [reflexivity|].
  destruct r; simpl; rewrite IH; reflexivity.
Qed.

Lemma appendFrame_requests (frame : Frame) (e : Env) (o : MseDecoder) :
  appends (snd (appendFrame frame e o)) =
    match converter o with Some _ => [frame] | None => [] end /\
  creations (snd (appendFrame frame e o)) = [] /\
  (converter o = None -> snd (appendFrame frame e o) = []).
Proof.
  unfold appendFrame. destruct (converter o); [|repeat split].
  destruct (isIFrame frame).
  - destruct (trimRange (buffered (tag e))) as [start end_].
    destruct (negb (end_ =? 0) && Qltb start (inject_Z end_));
      (split; [reflexivity | split; [reflexivity | discriminate]]).
  - split; [reflexivity | split; [reflexivity | discriminate]].
Qed.

Lemma recoverStalled_requests (e : Env) (o : MseDecoder) :
  appends (snd (recoverStalled e o)) = [] /\
  creations (snd (recoverStalled e o)) = [] /\
  converter (fst (recoverStalled e o)) = converter o.
Proof.
  unfold recoverStalled.
  destruct (5 <? stalledCounter o); [|repeat split].
  destruct (buffered (tag e)) as [|[start0 end0] ranges]; repeat split.
Qed.

Lemma countStalled_converter (o : MseDecoder) :
  converter (fst (countStalled o)) = converter o.
Proof.
  unfold countStalled, update. cbn.
  destruct (momentumQualityStats (super o)) as [m|]; [|reflexivity].
  destruct (isSeeking o); [reflexivity|].
  destruct (isStalled m); reflexivity.
Qed.

Lemma pushFrame_converter (frame : Frame) (e : Env) (o : MseDecoder) :
  converter (fst (pushFrame frame e o)) = converter o.
Proof.
  rewrite pushFrame_phases. cbv zeta. cbn [fst].
  destruct (recoverStalled_requests e
              (fst (countStalled (fst (Decoder_pushFrame frame e o)))))
    as [_ [_ Hconv]].
  rewrite Hconv, countStalled_converter. apply Decoder_pushFrame_converter.
Qed.

Lemma pushFrame_appends (frame : Frame) (e : Env) (o : MseDecoder) :
  appends (snd (pushFrame frame e o)) =
    match converter o with Some _ => [frame] | None => [] end /\
  creations (snd (pushFrame frame e o)) = [] /\
  (converter o = None -> removals (snd (pushFrame frame e o)) = []).
Proof.
  rewrite pushFrame_phases. cbv zeta. cbn [snd].
  rewrite appends_app, creations_app, removals_app.
  destruct (recoverStalled_requests e
              (fst (countStalled (fst (Decoder_pushFrame frame e o)))))
    as [Ha [Hc _]].
  rewrite Ha, Hc, recoverStalled_removals, !app_nil_r.
  destruct (appendFrame_requests frame e (fst (Decoder_pushFrame frame e o)))
    as [Ha1 [Hc1 Hnone]].
  rewrite Decoder_pushFrame_converter in Ha1, Hnone.
  split; [exact Ha1|]. split; [exact Hc1|].
  intros Hconv. rewrite (Hnone Hconv). reflexivity.
Qed.

(** X4.  While the decoder has a converter, a run of pushes appends every
    pushed frame exactly once and in the order of the pushes; it creates no
    converter and leaves the one it has in place. *)
Theorem pushFrames_append_in_order
    (ps : list (Frame * Env)) (o : MseDecoder) (c : VideoConverter) :
  converter o = Some c ->
  appends (snd (pushFrames ps o)) = map fst ps /\
  creations (snd (pushFrames ps o)) = [] /\
  converter (fst (pushFrames ps o)) = Some c.
Proof.
  revert o. induction ps as [|[frame e] ps IH]; intros o Hconv.
  - cbn. repeat split. exact Hconv.
  - rewrite pushFrames_cons. cbn [fst snd map].
    rewrite appends_app, creations_app.
    destruct (pushFrame_appends frame e o) as [Ha [Hc _]].
    rewrite Ha, Hc, Hconv.
    destruct (IH (fst (pushFrame frame e o))) as [Ha2 [Hc2 Hconv2]];
      [rewrite pushFrame_converter; exact Hconv|].
    rewrite Ha2, Hc2. repeat split. exact Hconv2.
Qed.

Lemma pushFrames_no_converter (ps : list (Frame * Env)) (o : MseDecoder) :
  converter o = None ->
  appends (snd (pushFrames ps o)) = [] /\
  removals (snd (pushFrames ps o)) = [] /\
  converter (fst (pushFrames ps o)) = None.
Proof.
  revert o. induction ps as [|[frame e] ps IH]; intros o Hconv.
  - cbn. repeat split. exact Hconv.
  - rewrite pushFrames_cons. cbn [fst snd].
    rewrite appends_app, removals_app.
    destruct (pushFrame_appends frame e o) as [Ha [_ Hr]].
    rewrite Ha, Hconv, (Hr Hconv).
    apply IH. rewrite pushFrame_converter. exact Hconv.
Qed.

(** X5.  After [stop()] or [pause()] the decoder has no converter, and the
    frames pushed from then on are dropped: no run of pushes sends an
    append or a removal. *)
Theorem pushes_after_stop_are_dropped (ps : list (Frame * Env)) (o : MseDecoder) :
  (converter (fst (stop o)) = None /\
   appends (snd (pushFrames ps (fst (stop o)))) = [] /\
   removals (snd (pushFrames ps (fst (stop o)))) = []) /\
  (converter (fst (pause o)) = None /\
   appends (snd (pushFrames ps (fst (pause o)))) = [] /\
   removals (snd (pushFrames ps (fst (pause o)))) = []).
Proof.
  assert (Hstop : forall hook,
            converter (fst ((super_call hook ;; stopConverter)%method o)) = None).
  { intros hook. unfold andThen, super_call, update, stopConverter, send, skip.
    cbn. destruct (converter o) eqn:Hconv; cbn; [reflexivity | exact Hconv]. }
  split.
  - pose proof (Hstop Decoder_stop) as Hnone. fold stop in Hnone.
    split; [exact Hnone|].
    destruct (pushFrames_no_converter ps (fst (stop o)) Hnone) as [Ha [Hr _]].
    split; assumption.
  - pose proof (Hstop Decoder_pause) as Hnone. fold pause in Hnone.
    split; [exact Hnone|].
    destruct (pushFrames_no_converter ps (fst (pause o)) Hnone) as [Ha [Hr _]].
    split; assumption.
Qed.

(** X6.  A push sends at most one removal, and only for a key frame pushed
    to a decoder with a converter; the range it names starts at the start
    of the first buffered range, ends at that range's end converted by
    [| 0], and is never empty: the end is not 0 and lies above the start. *)
Theorem pushFrame_removal_well_formed (frame : Frame) (e : Env) (o : MseDecoder) :
  removals (snd (pushFrame frame e o)) = [] \/
  exists start0 end0 ranges,
    buffered (tag e) = (start0, end0) :: ranges /\
    removals (snd (pushFrame frame e o)) = [(start0, ToInt32 end0)] /\
    isIFrame frame = true /\
    converter o <> None /\
    ToInt32 end0 <> 0 /\
    (start0 < inject_Z (ToInt32 end0))%Q.
Proof.
  rewrite pushFrame_phases. cbv zeta. cbn [snd].
  rewrite removals_app, recoverStalled_removals, app_nil_r.
  unfold appendFrame. rewrite Decoder_pushFrame_converter.
  destruct (converter o) as [c|]; [|left; reflexivity].
  destruct (isIFrame frame); [|left; reflexivity].
  destruct (buffered (tag e)) as [|[start0 end0] ranges]; [left; reflexivity|].
  cbn [trimRange].
  destruct (ToInt32 end0 =? 0) eqn:Hzero; [left; reflexivity|].
  destruct (Qltb start0 (inject_Z (ToInt32 end0))) eqn:Hlt; [|left; reflexivity].
  right. exists start0, end0, ranges.
  split; [reflexivity|]. split; [reflexivity|]. split; [reflexivity|].
  split; [discriminate|]. split; [apply Z.eqb_neq; exact Hzero|].
  apply Qltb_lt. exact Hlt.
Qed.

(** X7.  A first buffered range that ends before the first second, or
    whose floored end does not lie above its start, is never trimmed. *)
Theorem short_range_not_trimmed
    (frame : Frame) (e : Env) (o : MseDecoder)
    (start0 end0 : Q) (ranges : list (Q * Q)) :
  buffered (tag e) = (start0, end0) :: ranges ->
  (0 <= end0)%Q ->
  (end0 < inject_Z (2 ^ 31))%Q ->
  (end0 < 1)%Q \/ (inject_Z (Qfloor end0) <= start0)%Q ->
  removals (snd (pushFrame frame e o)) = [].
Proof.
  intros Hranges Hnonneg Hsmall Hshort.
  rewrite pushFrame_phases. cbv zeta. cbn [snd].
  rewrite removals_app, recoverStalled_removals, app_nil_r.
  unfold appendFrame. destruct (converter _); [|reflexivity].
  destruct (isIFrame frame); [|reflexivity].
  rewrite Hranges. cbn [trimRange].
  rewrite (ToInt32_floor end0 Hnonneg Hsmall).
  destruct Hshort as [Hone | Hle].
  - assert (Hlow : 0 <= Qfloor end0).
    { change 0 with (Qfloor 0). apply Qfloor_resp_le. exact Hnonneg. }
    assert (Hhigh : Qfloor end0 < 1).
    { rewrite Zlt_Qlt. apply Qle_lt_trans with end0; [apply Qfloor_le | exact Hone]. }
    assert (Hzero : (Qfloor end0 =? 0) = true) by (apply Z.eqb_eq; lia).
    rewrite Hzero. reflexivity.
  - destruct (Qltb start0 (inject_Z (Qfloor end0))) eqn:Hlt.
    + apply Qltb_lt in Hlt. elim (Qlt_not_le _ _ Hlt Hle).
    + rewrite andb_false_r. reflexivity.
Qed.

(** X8.  A push that requests a seek sends, as its last three requests and
    in this order, the warning, the registration of the ['seeked'] listener
    and the new playback position, the end of the first buffered range;
    what it sends before them holds no seek. *)
Theorem seek_follows_listener (frame : Frame) (e : Env) (o : MseDecoder) :
  seeks (snd (pushFrame frame e o)) <> [] ->
  exists start0 end0 ranges before,
    buffered (tag e) = (start0, end0) :: ranges /\
    snd (pushFrame frame e o) =
      before ++ [ConsoleWarn; AddSeekedListener; SetCurrentTime end0] /\
    seeks before = [].
Proof.
  rewrite pushFrame_seeks, pushFrame_phases. cbv zeta. cbn [snd].
  remember (fst (countStalled (fst (Decoder_pushFrame frame e o)))) as o2.
  unfold recoverStalled.
  destruct (5 <? stalledCounter o2); [|intros H; now elim H].
  destruct (buffered (tag e)) as [|[start0 end0] ranges];
    [intros H; now elim H|].
  intros _.
  exists start0, end0, ranges,
    (snd (appendFrame frame e (fst (Decoder_pushFrame frame e o)))).
  split; [reflexivity|]. split; [reflexivity|].
  apply appendFrame_seeks.
Qed.

(** ** The lifecycle methods *)

Ltac run_lifecycle :=
  unfold play, pause, stop, stopConverter, resetStats, andThen, super_call,
    update, send, skip; cbn.

Lemma play_result (o : MseDecoder) :
  let played := Decoder_play (super o) in
  play o =
    if readyToPlay played then
      match converter o with
      | Some _ => (set_super played o, [ConverterPlay])
      | None =>
          (set_videoStats []
             (set_super (Decoder_resetStats played)
                (set_converter (Some (converterOfPlay played o)) o)),
           [CreateConverter (converterOfPlay played o); ConverterPlay])
      end
    else (set_super played o, []).
Proof.
  unfold readyToPlay, converterOfPlay. run_lifecycle.
  destruct (STATE_eqb (state (Decoder_play (super o))) PLAYING); cbn;
    [|reflexivity].
  destruct (screenInfo (Decoder_play (super o))); cbn; [|reflexivity].
  destruct (converter o); reflexivity.
Qed.

(** X9.  [play()] either stops short, sending nothing and leaving the
    converter and the quality window alone, or ends by playing a converter
    that exists: the one the decoder had, untouched and with the window
    untouched; or, when it had none, a new one for the rate of the current
    settings (60 without settings), created before it is played and with the
    quality window emptied. *)
Theorem play_postcondition (o : MseDecoder) :
  let played := Decoder_play (super o) in
  (readyToPlay played = false ->
   snd (play o) = [] /\
   converter (fst (play o)) = converter o /\
   videoStats (fst (play o)) = videoStats o) /\
  (readyToPlay played = true ->
   (forall c,
      converter o = Some c ->
      snd (play o) = [ConverterPlay] /\
      converter (fst (play o)) = Some c /\
      videoStats (fst (play o)) = videoStats o) /\
   (converter o = None ->
      snd (play o) =
        [CreateConverter (converterOfPlay played o); ConverterPlay] /\
      converter (fst (play o)) = Some (converterOfPlay played o) /\
      videoStats (fst (play o)) = [])).
Proof.
  cbv zeta. rewrite play_result. cbv zeta. split.
  - intros Hready. rewrite Hready. repeat split.
  - intros Hready. rewrite Hready. split.
    + intros c Hconv. rewrite Hconv. cbn. repeat split. exact Hconv.
    + intros Hconv. rewrite Hconv. repeat split.
Qed.

Lemma plays_with_converter (n : nat) (o : MseDecoder) (c : VideoConverter) :
  converter o = Some c ->
  creations (snd (calls (repeat CallPlay n) o)) = [] /\
  converter (fst (calls (repeat CallPlay n) o)) = Some c /\
  videoStats (fst (calls (repeat CallPlay n) o)) = videoStats o.
Proof.
  revert o. induction n as [|n IH]; intros o Hconv.
  - cbn. repeat split. exact Hconv.
  - cbn [repeat calls call]. unfold andThen.
    pose proof (play_result o) as Hplay. cbv zeta in Hplay.
    rewrite Hconv in Hplay.
    destruct (play o) as [o1 t1].
    assert (H1 : converter o1 = Some c /\ videoStats o1 = videoStats o /\
                 creations t1 = []).
    { destruct (readyToPlay (Decoder_play (super o)));
        inversion Hplay; subst o1 t1; cbn; repeat split; exact Hconv. }
    destruct H1 as [Hconv1 [Hvs1 Hcr1]].
    destruct (IH o1 Hconv1) as [Hcr [Hc Hvs]].
    destruct (calls (repeat CallPlay n) o1) as [o2 t2]. cbn [fst snd] in *.
    rewrite creations_app, Hcr1, Hcr. repeat split; congruence.
Qed.

(** X10.  However often [play()] is called in a row, at most one converter
    is created; and none at all when the decoder already has one, which is
    then still in place, with the quality window as it was. *)
Theorem repeated_play_creates_once (n : nat) (o : MseDecoder) :
  (length (creations (snd (calls (repeat CallPlay n) o))) <= 1)%nat /\
  (forall c,
     converter o = Some c ->
     creations (snd (calls (repeat CallPlay n) o)) = [] /\
     converter (fst (calls (repeat CallPlay n) o)) = Some c /\
     videoStats (fst (calls (repeat CallPlay n) o)) = videoStats o).
Proof.
  split; [|intros c Hconv; apply plays_with_converter; exact Hconv].
  revert o. induction n as [|n IH]; intros o; [cbn; lia|].
  cbn [repeat calls call]. unfold andThen.
  pose proof (play_result o) as Hplay. cbv zeta in Hplay.
  destruct (play o) as [o1 t1].
  destruct (readyToPlay (Decoder_play (super o))).
  - destruct (converter o) as [c|] eqn:Hconv.
    + inversion Hplay; subst o1 t1.
      destruct (plays_with_converter n (set_super (Decoder_play (super o)) o) c Hconv)
        as [Hcr _].
      destruct (calls (repeat CallPlay n) _) as [o2 t2]. cbn [fst snd] in *.
      rewrite creations_app, Hcr. cbn. lia.
    + inversion Hplay; subst o1 t1.
      match goal with
      | |- context [calls (repeat CallPlay n) ?x] =>
          destruct (plays_with_converter n x
                      (converterOfPlay (Decoder_play (super o)) o) eq_refl)
            as [Hcr _];
          destruct (calls (repeat CallPlay n) x) as [o2 t2]
      end.
      cbn [fst snd] in *. rewrite creations_app, Hcr. cbn. lia.
  - inversion Hplay; subst o1 t1.
    specialize (IH (set_super (Decoder_play (super o)) o)).
    destruct (calls (repeat CallPlay n) _) as [o2 t2]. cbn [fst snd] in *.
    exact IH.
Qed.

Lemma stop_result (hook : Decoder -> Decoder) (o : MseDecoder) :
  (super_call hook ;; stopConverter)%method o =
    (set_converter None (set_super (hook (super o)) o),
     match converter o with
     | Some _ => [AppendRawData []; ConverterPause]
     | None => []
     end).
Proof.
  run_lifecycle. destruct (converter o) eqn:Hconv; cbn; [reflexivity|].
  unfold set_converter, set_super. cbn. rewrite Hconv. reflexivity.
Qed.

(** X11.  [stop()] and [pause()] flush the converter with an empty append
    and pause it, in this order, when there is one, and send nothing when
    there is none; either way no converter is left, so a second [stop()] or
    [pause()] sends nothing.  Neither touches the quality window, the stall
    counter or the seek flag. *)
Theorem stop_is_idempotent (o : MseDecoder) :
  snd (stop o) =
    match converter o with
    | Some _ => [AppendRawData []; ConverterPause]
    | None => []
    end /\
  snd (pause o) = snd (stop o) /\
  converter (fst (stop o)) = None /\
  converter (fst (pause o)) = None /\
  snd (stop (fst (stop o))) = [] /\
  snd (pause (fst (stop o))) = [] /\
  snd (stop (fst (pause o))) = [] /\
  snd (pause (fst (pause o))) = [] /\
  videoStats (fst (stop o)) = videoStats o /\
  stalledCounter (fst (stop o)) = stalledCounter o /\
  isSeeking (fst (stop o)) = isSeeking o.
Proof.
  unfold stop, pause. rewrite !stop_result. cbn. repeat split.
Qed.

(** X12.  A restart, [stop()] followed by a [play()] that gets as far as
    the converter, creates a new converter for the rate of the current
    settings and empties the quality window, but leaves the stall detector
    as it was: the counter, the seek flag and the listener survive. *)
Theorem restart_keeps_detector (o : MseDecoder) :
  let restarted := Decoder_play (Decoder_stop (super o)) in
  readyToPlay restarted = true ->
  let r := (stop ;; play)%method o in
  converter (fst r) = Some (converterOfPlay restarted o) /\
  creations (snd r) = [converterOfPlay restarted o] /\
  videoStats (fst r) = [] /\
  stalledCounter (fst r) = stalledCounter o /\
  isSeeking (fst r) = isSeeking o /\
  seekedListeners (fst r) = seekedListeners o.
Proof.
  intros restarted Hready r.
  assert (Hr : r =
            (set_videoStats []
               (set_super (Decoder_resetStats restarted)
                  (set_converter (Some (converterOfPlay restarted o)) o)),
             snd (stop o)
             ++ [CreateConverter (converterOfPlay restarted o); ConverterPlay])).
  { subst r. unfold andThen, stop. rewrite stop_result.
    rewrite play_result. cbv zeta.
    cbn [super set_super set_converter converter].
    fold restarted. rewrite Hready. reflexivity. }
  rewrite Hr. cbn [fst snd]. rewrite creations_app.
  unfold stop. rewrite stop_result. cbn [snd].
  destruct (converter o); cbn; repeat split.
Qed.

(** ** More on stall counting *)

(** X13.  In the normal state a push whose recomputed momentum shows
    progress, a decoded frame or no input, puts the counter back to 0
    whatever it was, and requests no seek. *)
Theorem progress_resets_counter
    (frame : Frame) (e : Env) (o : MseDecoder) (m : MomentumStats.t) :
  isSeeking o = false ->
  momentumQualityStats (super (fst (Decoder_pushFrame frame e o))) = Some m ->
  isStalled m = false ->
  stalledCounter (fst (pushFrame frame e o)) = 0 /\
  isSeeking (fst (pushFrame frame e o)) = false /\
  seeks (snd (pushFrame frame e o)) = [].
Proof.
  intros Hnormal Hm Hprogress.
  destruct (Decoder_pushFrame_frame frame e o) as [Hc Hs].
  rewrite pushFrame_seeks, pushFrame_phases. cbv zeta. cbn [fst].
  remember (fst (Decoder_pushFrame frame e o)) as o1 eqn:Ho1. clear Ho1.
  assert (Hcount : fst (countStalled o1) = set_stalledCounter 0 o1).
  { unfold countStalled, update. cbn [fst].
    rewrite Hm, Hs, Hnormal, Hprogress. reflexivity. }
  rewrite Hcount, recoverStalled_idle by (left; cbn; lia).
  cbn. repeat split. congruence.
Qed.

Lemma stalledRun_without_buffer (ps : list (Frame * Env)) (o : MseDecoder) :
  isSeeking o = false ->
  stalledRun ps o = true ->
  Forall (fun p => buffered (tag (snd p)) = []) ps ->
  stalledCounter (fst (pushFrames ps o)) = stalledCounter o + Z.of_nat (length ps) /\
  isSeeking (fst (pushFrames ps o)) = false /\
  seeks (snd (pushFrames ps o)) = [].
Proof.
  revert o. induction ps as [|[frame e] ps IH]; intros o Hnormal Hrun Hempty.
  - cbn. repeat split; [lia | exact Hnormal].
  - cbn [stalledRun] in Hrun. apply andb_true_iff in Hrun.
    destruct Hrun as [Hobs Hrun].
    apply Forall_cons_iff in Hempty. destruct Hempty as [Hhere Hempty].
    cbn [snd] in Hhere.
    destruct (pushFrame_stalled_counts frame e o Hnormal Hobs)
      as [Hc [Hs Ht]]; [right; exact Hhere|].
    destruct (IH (fst (pushFrame frame e o)) Hs Hrun Hempty) as [Hc2 [Hs2 Ht2]].
    rewrite pushFrames_cons. cbn [fst snd length].
    rewrite seeks_app, Ht, Ht2, Nat2Z.inj_succ.
    repeat split; [lia | exact Hs2].
Qed.

(** X14.  While the element reports no buffered range, stalled observations
    in the normal state are counted without limit and no seek is requested;
    the recovery is put off to the first stalled push that finds a buffered
    range with the counter above 5, which seeks to the end of that range. *)
Theorem recovery_waits_for_buffer
    (ps : list (Frame * Env)) (frame : Frame) (e : Env) (o : MseDecoder)
    (start0 end0 : Q) (ranges : list (Q * Q)) :
  isSeeking o = false ->
  stalledRun (ps ++ [(frame, e)]) o = true ->
  Forall (fun p => buffered (tag (snd p)) = []) ps ->
  buffered (tag e) = (start0, end0) :: ranges ->
  5 <= stalledCounter o + Z.of_nat (length ps) ->
  stalledCounter (fst (pushFrames ps o)) = stalledCounter o + Z.of_nat (length ps) /\
  seeks (snd (pushFrames ps o)) = [] /\
  seeks (snd (pushFrame frame e (fst (pushFrames ps o)))) = [end0] /\
  stalledCounter (fst (pushFrame frame e (fst (pushFrames ps o)))) = 0.
Proof.
  intros Hnormal Hrun Hempty Hranges Hcount.
  rewrite stalledRun_app in Hrun. apply andb_true_iff in Hrun.
  destruct Hrun as [Hbefore Hlast].
  cbn [stalledRun] in Hlast. rewrite andb_true_r in Hlast.
  destruct (stalledRun_without_buffer ps o Hnormal Hbefore Hempty)
    as [Hc [Hs Ht]].
  destruct (pushFrame_stalled_fires frame e (fst (pushFrames ps o))
              start0 end0 ranges Hs Hlast) as [Hc2 [_ Ht2]];
    [lia | exact Hranges |].
  repeat split; assumption.
Qed.

Lemma pushFrame_without_counters (frame : Frame) (e : Env) (o : MseDecoder) :
  momentumQualityStats (super o) = None ->
  stalledCounter o <= 5 ->
  getVideoPlaybackQuality e = None ->
  seeks (snd (pushFrame frame e o)) = [] /\
  stalledCounter (fst (pushFrame frame e o)) = stalledCounter o /\
  momentumQualityStats (super (fst (pushFrame frame e o))) = None /\
  inputBytes (super (fst (pushFrame frame e o))) =
    inputBytes (super o) ++ [InputSample.mk (nowInput e) (byteLength frame)].
Proof.
  intros Hnone Hcount Hsampler.
  rewrite pushFrame_seeks, pushFrame_phases. cbv zeta. cbn [fst].
  rewrite recoverStalled_super, countStalled_super.
  assert (Ho1 : fst (Decoder_pushFrame frame e o) =
                set_super
                  (set_inputBytes
                     (inputBytes (super o)
                      ++ [InputSample.mk (nowInput e) (byteLength frame)])
                     (super o)) o).
  { unfold Decoder_pushFrame, update. cbn [fst].
    unfold calculateMomentumStats. rewrite Hsampler. reflexivity. }
  rewrite Ho1.
  assert (Hcount1 : forall x, momentumQualityStats (super x) = None ->
                              fst (countStalled x) = x).
  { intros x Hx. unfold countStalled, update. cbn [fst]. rewrite Hx.
    reflexivity. }
  rewrite Hcount1 by exact Hnone.
  rewrite recoverStalled_idle by (left; exact Hcount).
  cbn. repeat split. exact Hnone.
Qed.

(** X15.  On an element without counters, a decoder that has no momentum
    value yet and a counter of at most 5 never requests a seek and never
    moves the counter, however many frames are pushed; the momentum stays
    unset, and the input window, which only a recomputation with counters
    evicts, grows by one sample with every push. *)
Theorem no_recovery_without_counters (ps : list (Frame * Env)) (o : MseDecoder) :
  momentumQualityStats (super o) = None ->
  stalledCounter o <= 5 ->
  Forall (fun p => getVideoPlaybackQuality (snd p) = None) ps ->
  seeks (snd (pushFrames ps o)) = [] /\
  stalledCounter (fst (pushFrames ps o)) = stalledCounter o /\
  momentumQualityStats (super (fst (pushFrames ps o))) = None /\
  inputBytes (super (fst (pushFrames ps o))) =
    inputBytes (super o)
    ++ map (fun p => InputSample.mk (nowInput (snd p)) (byteLength (fst p))) ps.
Proof.
  revert o. induction ps as [|[frame e] ps IH]; intros o Hnone Hcount Hall.
  - cbn. rewrite app_nil_r. repeat split. exact Hnone.
  - apply Forall_cons_iff in Hall. destruct Hall as [Hhere Hall].
    cbn [snd] in Hhere.
    destruct (pushFrame_without_counters frame e o Hnone Hcount Hhere)
      as [Ht [Hc [Hm Hib]]].
    destruct (IH (fst (pushFrame frame e o))) as [Ht2 [Hc2 [Hm2 Hib2]]];
      [exact Hm | rewrite Hc; exact Hcount | exact Hall |].
    rewrite pushFrames_cons. cbn [fst snd map].
    rewrite seeks_app, Ht, Ht2, Hc2, Hc, Hib2, Hib, <- app_assoc.
    repeat split. exact Hm2.
Qed.

(** X16.  When ['seeked'] arrives after a recovery, counting starts again
    from 0: up to five stalled pushes after it request no seek and leave
    the counter at their number. *)
Theorem counting_restarts_after_seek
    (frame : Frame) (e : Env) (o : MseDecoder) (ps : list (Frame * Env)) :
  seeks (snd (pushFrame frame e o)) <> [] ->
  let resumed := fst (onSeekEnd (fst (pushFrame frame e o))) in
  stalledRun ps resumed = true ->
  (length ps <= 5)%nat ->
  seeks (snd (pushFrames ps resumed)) = [] /\
  stalledCounter (fst (pushFrames ps resumed)) = Z.of_nat (length ps) /\
  isSeeking (fst (pushFrames ps resumed)) = false.
Proof.
  intros Hsought resumed Hrun Hlen.
  destruct (onSeekEnd_resumes frame e o Hsought) as [Hs [_ Hc]].
  fold resumed in Hs, Hc.
  destruct (stalledRun_counts ps resumed Hs Hrun) as [Hc2 [Hs2 Ht2]];
    [rewrite Hc; lia|].
  rewrite Hc in Hc2. repeat split; assumption.
Qed.

(** ** The stall detector along any sequence of calls *)

Lemma quiet_skip : quiet skip.
Proof. intros o. repeat split. Qed.

Lemma quiet_send (r : Request) : seeks [r] = [] -> quiet (send r).
Proof. intros Hr o. cbn [send fst snd]. repeat split. exact Hr. Qed.

Lemma quiet_super_call (f : Decoder -> Decoder) : quiet (super_call f).
Proof. intros o. repeat split. Qed.

Lemma quiet_set_converter (c : option VideoConverter) :
  quiet (update (set_converter c)).
Proof. intros o. repeat split. Qed.

Lemma quiet_set_videoStats (v : list QualityStats.t) :
  quiet (update (set_videoStats v)).
Proof. intros o. repeat split. Qed.

Lemma quiet_andThen (m1 m2 : Method) :
  quiet m1 -> quiet m2 -> quiet (m1 ;; m2).
Proof.
  intros H1 H2 o. unfold andThen.
  destruct (H1 o) as [Hc1 [Hs1 [Hl1 Ht1]]].
  destruct (m1 o) as [o1 t1]. cbn [fst snd] in *.
  destruct (H2 o1) as [Hc2 [Hs2 [Hl2 Ht2]]].
  destruct (m2 o1) as [o2 t2]. cbn [fst snd] in *.
  rewrite seeks_app, Ht1, Ht2. repeat split; congruence.
Qed.

Create HintDb quiet.

#[local] Hint Resolve quiet_skip quiet_send quiet_super_call
  quiet_set_converter quiet_set_videoStats quiet_andThen : quiet.

Lemma quiet_stopConverter : quiet stopConverter.
Proof.
  intros o. unfold stopConverter.
  destruct (converter o); [|apply quiet_skip].
  apply quiet_andThen; auto 6 with quiet.
Qed.

Lemma quiet_resetStats : quiet resetStats.
Proof. unfold resetStats. auto with quiet. Qed.

#[local] Hint Resolve quiet_stopConverter quiet_resetStats : quiet.

Lemma quiet_stop : quiet stop.
Proof. unfold stop. auto with quiet. Qed.

Lemma quiet_pause : quiet pause.
Proof. unfold pause. auto with quiet. Qed.

Lemma quiet_play : quiet play.
Proof.
  unfold play. apply quiet_andThen; [apply quiet_super_call|].
  intros o.
  destruct (negb (STATE_eqb (state (super o)) PLAYING) || negb (screenInfo (super o)));
    [apply quiet_skip|].
  apply quiet_andThen; [|apply quiet_send; reflexivity].
  destruct (converter o); [apply quiet_skip|].
  cbv zeta. auto 6 with quiet.
Qed.

#[local] Hint Resolve quiet_stop quiet_pause quiet_play : quiet.

Lemma quiet_super_setVideoSettings (vs : VideoSettings) (saveToStorage : bool) :
  quiet (super_setVideoSettings vs saveToStorage).
Proof.
  intros o. unfold super_setVideoSettings.
  destruct (Decoder_setVideoSettings vs saveToStorage (super o)) as [d [|]];
    repeat split.
Qed.

Lemma quiet_setVideoSettings (vs : VideoSettings) (saveToStorage : bool) :
  quiet (setVideoSettings vs saveToStorage).
Proof.
  unfold setVideoSettings. apply quiet_andThen; [|apply quiet_super_setVideoSettings].
  intros o.
  destruct (videoSettings (super o)) as [current|]; [|apply quiet_skip].
  destruct (negb (maxFps current =? maxFps vs)); [|apply quiet_skip].
  apply quiet_andThen.
  - destruct (converter o); [|apply quiet_skip].
    cbv zeta. auto 6 with quiet.
  - destruct (STATE_eqb (state (super o)) PLAYING); auto with quiet.
Qed.

(** X17.  [play()], [pause()], [stop()], [setVideoSettings()] and
    [resetStats()] never touch the stall detector: the counter, the seek
    flag and the listener are what they were, and none of them requests a
    seek. *)
Theorem lifecycle_keeps_detector :
  quiet play /\
  quiet pause /\
  quiet stop /\
  (forall vs saveToStorage, quiet (setVideoSettings vs saveToStorage)) /\
  quiet resetStats.
Proof.
  split; [apply quiet_play|]. split; [apply quiet_pause|].
  split; [apply quiet_stop|]. split; [apply quiet_setVideoSettings|].
  apply quiet_resetStats.
Qed.

Lemma pushFrame_listeners (frame : Frame) (e : Env) (o : MseDecoder) :
  seekedListeners (fst (pushFrame frame e o)) =
    match seeks (snd (pushFrame frame e o)) with
    | [] => seekedListeners o
    | _ :: _ => S (seekedListeners o)
    end.
Proof.
  rewrite pushFrame_seeks, pushFrame_phases. cbv zeta. cbn [fst].
  assert (Hl1 : seekedListeners (fst (Decoder_pushFrame frame e o)) =
                seekedListeners o).
  { unfold Decoder_pushFrame, update. cbn [fst].
    match goal with
    | |- context [calculateMomentumStats e ?x] =>
        destruct (calculateMomentumStats_frame e x) as [_ [_ [_ [Hl _]]]]
    end.
    exact Hl. }
  remember (fst (Decoder_pushFrame frame e o)) as o1 eqn:Ho1. clear Ho1.
  assert (Hl2 : seekedListeners (fst (countStalled o1)) = seekedListeners o1).
  { unfold countStalled, update. cbn [fst].
    destruct (momentumQualityStats (super o1)) as [m|]; [|reflexivity].
    destruct (isSeeking o1); [reflexivity|].
    destruct (isStalled m); reflexivity. }
  remember (fst (countStalled o1)) as o2 eqn:Ho2. clear Ho2.
  unfold recoverStalled.
  destruct (5 <? stalledCounter o2); [|cbn; congruence].
  destruct (buffered (tag e)) as [|[start0 end0] ranges]; cbn; congruence.
Qed.

Lemma pushFrame_detectorState (frame : Frame) (e : Env) (o : MseDecoder) :
  detectorState o -> detectorState (fst (pushFrame frame e o)).
Proof.
  intros [Hnonneg Hstate]. split; [apply pushFrame_counter_nonneg; exact Hnonneg|].
  pose proof (pushFrame_listeners frame e o) as Hl.
  destruct Hstate as [[Hs Hzero] | [Hs [Hone Hc]]].
  - destruct (seeks (snd (pushFrame frame e o))) as [|p t] eqn:Ht.
    + left. split; [|congruence].
      destruct (isSeeking (fst (pushFrame frame e o))) eqn:Hs'; [|reflexivity].
      exfalso.
      (* the flag is only set by a push that seeks *)
      revert Hs' Ht. rewrite pushFrame_seeks, pushFrame_phases. cbv zeta.
      cbn [fst].
      destruct (Decoder_pushFrame_frame frame e o) as [_ Hs1].
      remember (fst (Decoder_pushFrame frame e o)) as o1 eqn:Ho1. clear Ho1.
      assert (Hs2 : isSeeking (fst (countStalled o1)) = false).
      { unfold countStalled, update. cbn [fst].
        destruct (momentumQualityStats (super o1)) as [m|]; [|congruence].
        rewrite Hs1, Hs. cbn. destruct (isStalled m); cbn; congruence. }
      remember (fst (countStalled o1)) as o2 eqn:Ho2. clear Ho2.
      unfold recoverStalled.
      destruct (5 <? stalledCounter o2); [|cbn; congruence].
      destruct (buffered (tag e)) as [|[start0 end0] ranges]; cbn;
        [congruence | discriminate].
    + right.
      assert (Hsought : seeks (snd (pushFrame frame e o)) <> [])
        by (rewrite Ht; discriminate).
      destruct (pushFrame_sought frame e o Hsought) as [Hs' Hc'].
      repeat split; [exact Hs' | lia | exact Hc'].
  - destruct (pushFrame_seek_in_flight frame e o Hs Hc) as [Hs' [Hc' Ht]].
    rewrite Ht in Hl. right. repeat split; [exact Hs' | congruence | exact Hc'].
Qed.

Lemma onSeekEnd_detectorState (o : MseDecoder) :
  detectorState o -> detectorState (fst (onSeekEnd o)).
Proof.
  intros [Hnonneg Hstate]. unfold onSeekEnd, update. cbn [fst].
  destruct Hstate as [[Hs Hzero] | [Hs [Hone Hc]]].
  - rewrite Hzero. split; [exact Hnonneg | left; split; assumption].
  - rewrite Hone. split; [exact Hnonneg | left; split; reflexivity].
Qed.

Lemma call_detectorState (c : Call) (o : MseDecoder) :
  detectorState o -> detectorState (fst (call c o)).
Proof.
  intros Hstate.
  assert (Hquiet : forall m, quiet m -> detectorState (fst (m o))).
  { intros m Hm. destruct (Hm o) as [Hc [Hs [Hl _]]].
    unfold detectorState. rewrite Hc, Hs, Hl. exact Hstate. }
  destruct c; cbn [call].
  - apply pushFrame_detectorState. exact Hstate.
  - apply onSeekEnd_detectorState. exact Hstate.
  - apply Hquiet, quiet_play.
  - apply Hquiet, quiet_pause.
  - apply Hquiet, quiet_stop.
  - apply Hquiet, quiet_setVideoSettings.
  - apply Hquiet, quiet_resetStats.
Qed.

Lemma calls_cons (c : Call) (cs : list Call) (o : MseDecoder) :
  calls (c :: cs) o =
    (fst (calls cs (fst (call c o))),
     snd (call c o) ++ snd (calls cs (fst (call c o)))).
Proof.
  cbn [calls]. unfold andThen.
  destruct (call c o) as [o1 t1]. cbn [fst snd].
  destruct (calls cs o1) as [o2 t2]. reflexivity.
Qed.

(** X18.  Whatever is called on a newly constructed decoder, in whatever
    order, the stall detector stays in one of its two states: no seek in
    flight and no listener on the element, or a seek in flight with exactly
    one listener and the counter at 0; and the counter is never negative.
    So the flag is never left set without a listener that will clear it,
    and no second listener is ever registered beside a pending one. *)
Theorem detector_state_invariant (d : Decoder) (cs : list Call) :
  detectorState (fst (calls cs (new_MseDecoder d))).
Proof.
  assert (Hall : forall o, detectorState o -> detectorState (fst (calls cs o))).
  { induction cs as [|c cs IH]; intros o Hstate; [exact Hstate|].
    rewrite calls_cons. cbn [fst]. apply IH, call_detectorState, Hstate. }
  apply Hall. split; [cbn; lia|]. left. split; reflexivity.
Qed.

(** X19.  After a push has requested a recovery seek, no sequence of calls
    without the ['seeked'] event, be they pushes, [play()], [pause()],
    [stop()], [setVideoSettings()] or [resetStats()], requests another seek:
    only the event ends the wait. *)
Theorem no_second_seek_before_seeked
    (frame : Frame) (e : Env) (o : MseDecoder) (cs : list Call) :
  seeks (snd (pushFrame frame e o)) <> [] ->
  forallb (fun c => negb (isSeeked c)) cs = true ->
  seeks (snd (calls cs (fst (pushFrame frame e o)))) = [] /\
  isSeeking (fst (calls cs (fst (pushFrame frame e o)))) = true.
Proof.
  intros Hsought Hcalls.
  destruct (pushFrame_sought frame e o Hsought) as [Hs Hc].
  remember (fst (pushFrame frame e o)) as o1 eqn:Ho1. clear Ho1 Hsought.
  revert o1 Hs Hc. induction cs as [|c cs IH]; intros o1 Hs Hc.
  - cbn. split; [reflexivity | exact Hs].
  - cbn [forallb] in Hcalls. apply andb_true_iff in Hcalls.
    destruct Hcalls as [Hc1 Hcalls].
    rewrite calls_cons. cbn [fst snd]. rewrite seeks_app.
    assert (Hstep : seeks (snd (call c o1)) = [] /\
                    isSeeking (fst (call c o1)) = true /\
                    stalledCounter (fst (call c o1)) = 0).
    { destruct c; cbn [call]; cbn in Hc1; try discriminate.
      - destruct (pushFrame_seek_in_flight frame0 e0 o1 Hs Hc) as [H1 [H2 H3]].
        repeat split; assumption.
      - destruct (quiet_play o1) as [H1 [H2 [_ H3]]]. repeat split; congruence.
      - destruct (quiet_pause o1) as [H1 [H2 [_ H3]]]. repeat split; congruence.
      - destruct (quiet_stop o1) as [H1 [H2 [_ H3]]]. repeat split; congruence.
      - destruct (quiet_setVideoSettings vs saveToStorage o1) as [H1 [H2 [_ H3]]].
        repeat split; congruence.
      - destruct (quiet_resetStats o1) as [H1 [H2 [_ H3]]].
        repeat split; congruence. }
    destruct Hstep as [Ht1 [Hs1 Hc1']].
    rewrite Ht1. cbn [app]. apply (IH Hcalls); assumption.
Qed.

(** ** The windows along a run of pushes *)

Lemma pushFrames_windowsUpTo (ps : list (Frame * Env)) (o : MseDecoder) (clock : Z) :
  windowsUpTo clock o ->
  clockNeverGoesBack clock ps ->
  exists clock',
    windowsUpTo clock' (fst (pushFrames ps o)) /\
    forall qs, clockNeverGoesBack clock (ps ++ qs) -> clockNeverGoesBack clock' qs.
Proof.
  revert o clock. induction ps as [|[frame e] ps IH]; intros o clock Hw Hclock.
  - exists clock. split; [exact Hw|]. intros qs Hqs. exact Hqs.
  - cbn [clockNeverGoesBack] in Hclock.
    destruct Hclock as [H1 [H2 [H3 Hrest]]].
    pose proof (pushFrame_windowsUpTo frame e o clock Hw H1 H2 H3) as Hw1.
    destruct (IH (fst (pushFrame frame e o)) (nowMomentum e) Hw1 Hrest)
      as [clock' [Hw' Hnext]].
    exists clock'. rewrite pushFrames_cons. cbn [fst].
    split; [exact Hw'|].
    intros qs Hqs. cbn [app clockNeverGoesBack] in Hqs. apply Hnext, Hqs.
Qed.

(** X20.  Along a run of pushes whose clock readings never go back, started
    with windows in arrival order, every push whose sampler has counters
    leaves in both windows only samples of the last 1000 ms before its own
    clock reading. *)
Theorem windows_hold_last_second
    (ps : list (Frame * Env)) (frame : Frame) (e : Env) (o : MseDecoder)
    (clock : Z) (stat : QualityStats.t) :
  windowsUpTo clock o ->
  clockNeverGoesBack clock (ps ++ [(frame, e)]) ->
  getVideoPlaybackQuality e = Some stat ->
  let o' := fst (pushFrames (ps ++ [(frame, e)]) o) in
  Forall (fun s => nowMomentum e - 1000 <= QualityStats.timestamp s <= nowMomentum e)
    (videoStats o') /\
  Forall (fun s => nowMomentum e - 1000 <= InputSample.timestamp s <= nowMomentum e)
    (inputBytes (super o')).
Proof.
  intros Hw Hclock Hstat o'. subst o'.
  assert (Hprefix : clockNeverGoesBack clock ps).
  { clear Hw. revert clock Hclock. induction ps as [|[f1 e1] ps IH];
      intros clock Hclock; [exact I|].
    cbn [app clockNeverGoesBack] in *.
    destruct Hclock as [H1 [H2 [H3 Hrest]]]. repeat split; try assumption.
    apply IH, Hrest. }
  destruct (pushFrames_windowsUpTo ps o clock Hw Hprefix)
    as [clock' [Hw' Hnext]].
  specialize (Hnext [(frame, e)] Hclock). cbn [clockNeverGoesBack] in Hnext.
  destruct Hnext as [H1 [H2 [H3 _]]].
  rewrite pushFrames_app, pushFrames_single. cbn [fst].
  remember (fst (pushFrames ps o)) as o1 eqn:Ho1. clear Ho1.
  pose proof (pushFrame_windowsUpTo frame e o1 clock' Hw' H1 H2 H3)
    as [_ [_ [Hvsb Hibb]]].
  destruct Hw' as [Hvs [Hib [Hvsb0 Hibb0]]].
  assert (Hwindows :
    videoStats (fst (pushFrame frame e o1)) =
      shiftOlder QualityStats.timestamp (nowMomentum e - 1000)
        (videoStats o1 ++ [stat]) /\
    inputBytes (super (fst (pushFrame frame e o1))) =
      shiftOlder InputSample.timestamp (nowMomentum e - 1000)
        (inputBytes (super o1)
         ++ [InputSample.mk (nowInput e) (byteLength frame)])).
  { rewrite pushFrame_phases. cbv zeta. cbn [fst].
    rewrite recoverStalled_super, countStalled_super.
    rewrite recoverStalled_videoStats, countStalled_videoStats.
    unfold Decoder_pushFrame, update. cbn [fst].
    match goal with
    | |- context [calculateMomentumStats e ?x] =>
        destruct (calculateMomentumStats_windows e x stat Hstat) as [Hw1 Hw2]
    end.
    rewrite Hw1, Hw2. split; reflexivity. }
  destruct Hwindows as [Hvs' Hib'].
  pose proof (getVideoPlaybackQuality_timestamp e stat Hstat) as Hts.
  split.
  - assert (Hlow : Forall (fun s => nowMomentum e - 1000 <= QualityStats.timestamp s)
                     (videoStats (fst (pushFrame frame e o1)))).
    { rewrite Hvs'. apply shiftOlder_within_horizon.
      apply arrivalOrder_append; [exact Hvs|].
      apply (Forall_le_trans QualityStats.timestamp clock'); [lia | exact Hvsb0]. }
    rewrite Forall_forall in *. intros s Hin. split; auto.
  - assert (Hlow : Forall (fun s => nowMomentum e - 1000 <= InputSample.timestamp s)
                     (inputBytes (super (fst (pushFrame frame e o1))))).
    { rewrite Hib'. apply shiftOlder_within_horizon.
      apply arrivalOrder_append; [exact Hib|].
      apply (Forall_le_trans InputSample.timestamp clock'); [cbn; lia | exact Hibb0]. }
    rewrite Forall_forall in *. intros s Hin. split; auto.
Qed.

(** X21.  A push whose sampler has counters, on a clock that advances by no
    more than 1000 ms during the push, counts the frame it was given: the
    momentum it sets has [inputFrames] of at least 1, so whether the
    observation is a stalled one depends on [decodedFrames] alone. *)
Theorem pushed_frame_is_counted
    (frame : Frame) (e : Env) (o : MseDecoder) (stat : QualityStats.t) :
  getVideoPlaybackQuality e = Some stat ->
  nowMomentum e - 1000 <= nowInput e ->
  nowMomentum e - 1000 <= nowQuality e ->
  exists m,
    momentumQualityStats (super (fst (pushFrame frame e o))) = Some m /\
    1 <= MomentumStats.inputFrames m /\
    (isStalled m = true <-> MomentumStats.decodedFrames m = 0).
Proof.
  intros Hstat Hinput Hquality.
  rewrite pushFrame_momentum. unfold Decoder_pushFrame, update. cbn [fst].
  set (sample := InputSample.mk (nowInput e) (byteLength frame)).
  rewrite <- (getVideoPlaybackQuality_timestamp e stat Hstat) in Hquality.
  destruct (shiftOlder_keeps_latest QualityStats.timestamp (nowMomentum e - 1000)
              (videoStats o) stat Hquality) as [oldest [rest [Hvs _]]].
  destruct (shiftOlder_keeps_latest InputSample.timestamp (nowMomentum e - 1000)
              (inputBytes (super o)) sample Hinput) as [first [more [Hib _]]].
  unfold calculateMomentumStats. rewrite Hstat. cbv zeta.
  cbn [videoStats set_super set_videoStats super inputBytes set_inputBytes].
  rewrite Hvs, Hib.
  eexists. split; [reflexivity|].
  unfold isStalled.
  cbn [MomentumStats.inputFrames MomentumStats.decodedFrames length].
  rewrite Nat2Z.inj_succ.
  split; [lia|].
  assert (Hpos : (0 <? Z.succ (Z.of_nat (length more))) = true)
    by (apply Z.ltb_lt; lia).
  rewrite Hpos, andb_true_r. apply Z.eqb_eq.
Qed.

(** ** More on changing the frame rate *)

(** X22.  [setVideoSettings] with the rate the decoder already has, or on a
    decoder without settings, runs nothing of lines 172-181: the call is the
    base call of line 182 alone, it sends no request and the converter is
    neither stopped nor created anew. *)
Theorem setVideoSettings_same_rate
    (vs : VideoSettings) (saveToStorage : bool) (o : MseDecoder) :
  videoSettings (super o) = None \/
  (exists current,
     videoSettings (super o) = Some current /\ maxFps current = maxFps vs) ->
  setVideoSettings vs saveToStorage o = super_setVideoSettings vs saveToStorage o /\
  snd (setVideoSettings vs saveToStorage o) = [] /\
  converter (fst (setVideoSettings vs saveToStorage o)) = converter o.
Proof.
  intros Hsame.
  assert (Hcall : setVideoSettings vs saveToStorage o =
                  super_setVideoSettings vs saveToStorage o).
  { unfold setVideoSettings, andThen, skip.
    destruct Hsame as [Hnone | [current [Hcurrent Hfps]]].
    - rewrite Hnone.
      destruct (super_setVideoSettings vs saveToStorage o). reflexivity.
    - rewrite Hcurrent. apply Z.eqb_eq in Hfps. rewrite Hfps. cbn [negb].
      destruct (super_setVideoSettings vs saveToStorage o). reflexivity. }
  rewrite Hcall. split; [reflexivity|].
  unfold super_setVideoSettings.
  destruct (Decoder_setVideoSettings vs saveToStorage (super o)) as [d [|]];
    split; reflexivity.
Qed.

(** X23.  [setVideoSettings] with a new rate on a playing decoder that has
    no converter lets [play()] create one before the base class has stored
    the new settings: when the base [play] keeps the settings and gets as
    far as the converter, the converter is created for the old rate. *)
Theorem setVideoSettings_creates_for_old_rate
    (vs current : VideoSettings) (saveToStorage : bool) (o : MseDecoder) :
  videoSettings (super o) = Some current ->
  maxFps current <> maxFps vs ->
  converter o = None ->
  state (super o) = PLAYING ->
  readyToPlay (Decoder_play (super o)) = true ->
  videoSettings (Decoder_play (super o)) = Some current ->
  converter (fst (setVideoSettings vs saveToStorage o)) =
    Some (createConverter (maxFps current) (fpf o)) /\
  snd (setVideoSettings vs saveToStorage o) =
    [CreateConverter (createConverter (maxFps current) (fpf o)); ConverterPlay].
Proof.
  intros Hcurrent Hfps Hconv Hstate Hready Hkept.
  apply Z.eqb_neq in Hfps.
  pose proof (play_result o) as Hplay. cbv zeta in Hplay.
  rewrite Hready, Hconv in Hplay. unfold converterOfPlay in Hplay.
  rewrite Hkept in Hplay.
  unfold setVideoSettings, andThen.
  rewrite Hcurrent, Hfps. cbn [negb]. rewrite Hconv, Hstate. cbn [STATE_eqb].
  unfold skip. rewrite Hplay. unfold super_setVideoSettings.
  match goal with
  | |- context [Decoder_setVideoSettings vs saveToStorage ?x] =>
      destruct (Decoder_setVideoSettings vs saveToStorage x) as [d [|]]
  end; split; reflexivity.
Qed.

End Methods.

(** ** The scenarios *)

Abbreviation push := (pushFrame firstByteClassifier).
Abbreviation pushAll := (pushFrames firstByteClassifier).

(** The player after two stalled pushes, at clock readings 0 and 1000. *)
Abbreviation afterTwoPushes :=
  (fst (pushFrames firstByteClassifier (map stalledPush [0; 1000]) player)).

(** [player] is what [play()] makes of a newly constructed decoder. *)
Lemma player_played :
  fst (play (set_state PLAYING) clearStats freshDecoder) = player.
Proof. reflexivity. Qed.

(** C1, counterexample.  Five consecutive stalled observations in the normal
    state, with a buffered range reported at every one of them, request no
    seek at all, not one, and leave the counter at 5. *)
Lemma five_stalled_pushes_no_seek :
  isSeeking player = false /\
  stalledCounter player = 0 /\
  length fiveStalled = 5%nat /\
  stalledRun firstByteClassifier fiveStalled player = true /\
  Forall (fun p => buffered (tag (snd p)) <> []) fiveStalled /\
  seeks (snd (pushAll fiveStalled player)) = [] /\
  length (seeks (snd (pushAll fiveStalled player))) <> 1%nat /\
  stalledCounter (fst (pushAll fiveStalled player)) = 5.
Proof.
  repeat split; try (vm_compute; reflexivity).
  - repeat constructor; discriminate.
  - vm_compute. discriminate.
Qed.

(** The amended C1 on the five stalled pushes followed by a sixth. *)
Lemma six_stalled_pushes_seek_once_witness :
  exists before frame1 e1 after position,
    fiveStalled ++ [stalledPush 5000] = before ++ (frame1, e1) :: after /\
    In position (map snd (buffered (tag e1))) /\
    seeks (snd (pushAll before player)) = [] /\
    seeks (snd (push frame1 e1 (fst (pushAll before player)))) = [position] /\
    stalledCounter (fst (push frame1 e1 (fst (pushAll before player)))) = 0 /\
    seeks (snd (pushAll (fiveStalled ++ [stalledPush 5000]) player)) = [position] /\
    length (seeks (snd (pushAll (fiveStalled ++ [stalledPush 5000]) player))) = 1%nat /\
    (stalledCounter player = 0 -> before = fiveStalled /\ after = []).
Proof.
  apply (six_stalled_pushes_seek_once firstByteClassifier fiveStalled
           deltaFrame (at_ 5000 (stuckTag oneRange)) player).
  - reflexivity.
  - cbn. lia.
  - reflexivity.
  - vm_compute. reflexivity.
  - discriminate.
Defined.

(** C2 on frames of 100 bytes pushed one second apart while the decoded
    count stays at 0. *)
Lemma stalled_scenario_witness :
  stalledCounter (fst (pushAll threeStalled player)) = 3 /\
  seeks (snd (pushAll threeStalled player)) = [] /\
  isSeeking (fst (pushAll threeStalled player)) = false /\
  seeks (snd (pushAll (threeStalled ++ twoMoreStalled) player)) = [] /\
  seeks (snd (push deltaFrame (at_ 5000 (stuckTag oneRange))
                (fst (pushAll (threeStalled ++ twoMoreStalled) player)))) <> [] /\
  stalledCounter
    (fst (push deltaFrame (at_ 5000 (stuckTag oneRange))
            (fst (pushAll (threeStalled ++ twoMoreStalled) player)))) = 0.
Proof.
  apply (stalled_scenario firstByteClassifier threeStalled twoMoreStalled
           deltaFrame (at_ 5000 (stuckTag oneRange)) player).
  - reflexivity.
  - reflexivity.
  - reflexivity.
  - reflexivity.
  - vm_compute. reflexivity.
  - discriminate.
Defined.

(** C3, on the code.  With the counter at 5, a sixth stalled observation
    and two buffered ranges [0, 1) and [3, 7), the recovery sets the
    playback position to 1, the end of the first range, while the last
    range ends at 7. *)
Lemma recovery_seeks_first_range_end :
  let o5 := fst (pushAll fiveStalled player) in
  let e := at_ 5000 (stuckTag twoRanges) in
  stalledCounter o5 = 5 /\
  isSeeking o5 = false /\
  observesStall deltaFrame e o5 = true /\
  map snd (buffered (tag e)) = [1; 7]%Q /\
  seeks (snd (push deltaFrame e o5)) = [1%Q] /\
  ~ (1 == 7)%Q.
Proof.
  cbv zeta. repeat split; try (vm_compute; reflexivity).
  vm_compute. discriminate.
Qed.

(** C4 on eight further stalled pushes after the push that sought. *)
Lemma no_seek_while_seeking_witness :
  seeks (snd (push deltaFrame (at_ 5000 (stuckTag oneRange))
                (fst (pushAll fiveStalled player)))) <> [] /\
  let o' := fst (push deltaFrame (at_ 5000 (stuckTag oneRange))
                   (fst (pushAll fiveStalled player))) in
  seeks (snd (pushAll eightMoreStalled o')) = [] /\
  isSeeking (fst (pushAll eightMoreStalled o')) = true /\
  stalledCounter (fst (pushAll eightMoreStalled o')) = 0.
Proof.
  split.
  - vm_compute. discriminate.
  - apply (no_seek_while_seeking firstByteClassifier deltaFrame
             (at_ 5000 (stuckTag oneRange)) (fst (pushAll fiveStalled player))
             eightMoreStalled).
    vm_compute. discriminate.
Defined.

(** C5 on the buffered range [2.0, 5.0): the removal of [2.0, 5] comes first,
    then the append; the frame that is not a key frame removes nothing. *)
Lemma key_frame_trims_first_range_witness :
  (exists rest,
     snd (push keyFrame (at_ 0 (stuckTag [(2, 5)%Q])) player) =
       SourceBufferRemove 2 5 :: AppendRawData keyFrame :: rest /\
     removals rest = []) /\
  removals (snd (push deltaFrame (at_ 0 (stuckTag [(2, 5)%Q])) player)) = [].
Proof.
  split.
  - apply (proj1 (key_frame_trims_first_range firstByteClassifier keyFrame
                    (at_ 0 (stuckTag [(2, 5)%Q])) player)
             (createConverter 60 1) 2%Q 5%Q []).
    + reflexivity.
    + reflexivity.
    + reflexivity.
    + unfold Qle. cbn. lia.
    + unfold Qlt. cbn. lia.
    + unfold Qlt. cbn. lia.
  - apply (proj2 (key_frame_trims_first_range firstByteClassifier deltaFrame
                    (at_ 0 (stuckTag [(2, 5)%Q])) player)).
    reflexivity.
Defined.

(** C6 at clock reading 2000, where the samples of reading 0 are evicted. *)
Lemma eviction_keeps_horizon_witness :
  let e := at_ 2000 (stuckTag oneRange) in
  let stat := QualityStats.mk 2000 0 0 in
  let o' := calculateMomentumStats e afterTwoPushes in
  let horizon := nowMomentum e - 1000 in
  Forall (fun s => horizon <= QualityStats.timestamp s) (videoStats o') /\
  Forall (fun s => horizon <= InputSample.timestamp s) (inputBytes (super o')) /\
  videoStats afterTwoPushes ++ [stat] =
    filter (fun s => QualityStats.timestamp s <? horizon)
      (videoStats afterTwoPushes ++ [stat])
    ++ videoStats o' /\
  inputBytes (super afterTwoPushes) =
    filter (fun s => InputSample.timestamp s <? horizon)
      (inputBytes (super afterTwoPushes))
    ++ inputBytes (super o').
Proof.
  apply (eviction_keeps_horizon (at_ 2000 (stuckTag oneRange)) afterTwoPushes
           (QualityStats.mk 2000 0 0)).
  - reflexivity.
  - vm_compute. repeat constructor; discriminate.
  - vm_compute. repeat constructor; discriminate.
Defined.

(** C7 at clock reading 2000. *)
Lemma momentum_replaced_witness :
  let e := at_ 2000 (stuckTag oneRange) in
  let stat := QualityStats.mk 2000 0 0 in
  let o' := calculateMomentumStats e afterTwoPushes in
  exists oldest rest,
    videoStats o' = oldest :: rest /\
    last (videoStats o') oldest = stat /\
    momentumQualityStats (super o') =
      Some (MomentumStats.mk
              (QualityStats.decodedFrames stat - QualityStats.decodedFrames oldest)
              (QualityStats.droppedFrames stat - QualityStats.droppedFrames oldest)
              (fold_right Z.add 0 (map InputSample.bytes (inputBytes (super o'))))
              (Z.of_nat (length (inputBytes (super o'))))
              (nowMomentum e)).
Proof.
  apply (momentum_replaced (at_ 2000 (stuckTag oneRange)) afterTwoPushes
           (QualityStats.mk 2000 0 0)).
  - reflexivity.
  - cbn. lia.
Defined.

(** C8 on an element that only has the Gecko counter. *)
Lemma unavailable_counters_keep_momentum_witness :
  let e := at_ 2000 geckoTag in
  calculateMomentumStats e afterTwoPushes = afterTwoPushes /\
  momentumQualityStats (super (calculateMomentumStats e afterTwoPushes)) =
    momentumQualityStats (super afterTwoPushes) /\
  momentumQualityStats (super (fst (push deltaFrame e afterTwoPushes))) =
    momentumQualityStats (super afterTwoPushes).
Proof.
  apply (unavailable_counters_keep_momentum firstByteClassifier
           (at_ 2000 geckoTag) afterTwoPushes deltaFrame).
  reflexivity.
Defined.

(** C9 on a reset after two stalled pushes: the push after the reset takes
    the counter from 2 to 3. *)
Lemma first_observation_after_reset_witness :
  let e := at_ 2000 (stuckTag oneRange) in
  let stat := QualityStats.mk 2000 0 0 in
  let o0 := fst (resetStats clearStats afterTwoPushes) in
  let o1 := fst (Decoder_pushFrame deltaFrame e o0) in
  (0 < Z.of_nat (length (inputBytes (super o1))) /\
   isSeeking afterTwoPushes = false /\
   stalledCounter afterTwoPushes = 2 /\
   stalledCounter (fst (push deltaFrame e o0)) = 3) /\
  videoStats o0 = [] /\
  videoStats o1 = [stat] /\
  exists m,
    momentumQualityStats (super o1) = Some m /\
    MomentumStats.decodedFrames m = 0 /\
    MomentumStats.droppedFrames m = 0 /\
    (0 < MomentumStats.inputFrames m ->
     isSeeking afterTwoPushes = false ->
     observesStall deltaFrame e o0 = true /\
     stalledCounter (fst (countStalled o1)) = stalledCounter afterTwoPushes + 1 /\
     (stalledCounter afterTwoPushes + 1 <= 5 \/ buffered (tag e) = [] ->
      stalledCounter (fst (push deltaFrame e o0)) =
        stalledCounter afterTwoPushes + 1)).
Proof.
  split.
  - vm_compute. repeat split; reflexivity.
  - apply (first_observation_after_reset firstByteClassifier clearStats
             deltaFrame (at_ 2000 (stuckTag oneRange)) afterTwoPushes
             (QualityStats.mk 2000 0 0)).
    + reflexivity.
    + cbn. lia.
Defined.

(** X24 on a change from 60 to 30 frames per second after two pushes. *)
Lemma setVideoSettings_new_rate_witness :
  let r := setVideoSettings (set_state PLAYING) (set_state STOPPED) clearStats
             storeVideoSettings thirtyFps false afterTwoPushes in
  let c' := createConverter 30 1 in
  (videoStats afterTwoPushes =
     [QualityStats.mk 0 0 0; QualityStats.mk 1000 0 0] /\
   stalledCounter afterTwoPushes = 2) /\
  converter (fst r) = Some c' /\
  creations (snd r) = [c'] /\
  stalledCounter (fst r) = stalledCounter afterTwoPushes /\
  isSeeking (fst r) = isSeeking afterTwoPushes /\
  videoStats (fst r) =
    (if snd (storeVideoSettings thirtyFps false
               (set_state PLAYING (set_state STOPPED (super afterTwoPushes))))
     then [] else videoStats afterTwoPushes) /\
  exists rest,
    snd r = AppendRawData [] :: ConverterPause :: CreateConverter c' :: rest /\
    (rest = [] \/ rest = [ConverterPlay]).
Proof.
  split.
  - vm_compute. split; reflexivity.
  - apply (setVideoSettings_new_rate (set_state PLAYING) (set_state STOPPED)
             clearStats storeVideoSettings thirtyFps preferredVideoSettings
             false (createConverter 60 1) afterTwoPushes).
    + reflexivity.
    + cbn. lia.
    + reflexivity.
Defined.

(** ** Further scenarios *)

Abbreviation doAll :=
  (calls firstByteClassifier (set_state PLAYING) (set_state PAUSED)
     (set_state STOPPED) clearStats storeVideoSettings).

(** The player after the five stalled pushes and the sixth that seeks. *)
Abbreviation afterSeek :=
  (fst (push deltaFrame (at_ 5000 (stuckTag oneRange))
          (fst (pushAll fiveStalled player)))).

(** X2 on the quality window of the player after two pushes and a third
    sample: evicting at 500 and then at 1500, or at 1500 at once. *)
Lemma shiftOlder_later_horizon_witness :
  let w := videoStats afterTwoPushes ++ [QualityStats.mk 2000 0 0] in
  shiftOlder QualityStats.timestamp 1500 (shiftOlder QualityStats.timestamp 500 w) =
  shiftOlder QualityStats.timestamp 1500 w.
Proof.
  apply (shiftOlder_later_horizon QualityStats.timestamp 500 1500). lia.
Defined.

(** X3 on a third sample that reports 30 decoded frames. *)
Lemma momentum_deltas_not_negative_witness :
  exists m,
    momentumQualityStats
      (super (calculateMomentumStats (at_ 2000 (countingTag 30 oneRange))
                afterTwoPushes)) = Some m /\
    0 <= MomentumStats.decodedFrames m /\
    0 <= MomentumStats.droppedFrames m.
Proof.
  apply (momentum_deltas_not_negative (at_ 2000 (countingTag 30 oneRange))
           afterTwoPushes (QualityStats.mk 2000 30 0)).
  - reflexivity.
  - cbn. lia.
  - vm_compute. repeat constructor; discriminate.
Defined.

(** X4 on the five stalled pushes. *)
Lemma pushFrames_append_in_order_witness :
  appends (snd (pushAll fiveStalled player)) = map fst fiveStalled /\
  creations (snd (pushAll fiveStalled player)) = [] /\
  converter (fst (pushAll fiveStalled player)) = Some (createConverter 60 1).
Proof.
  apply (pushFrames_append_in_order firstByteClassifier fiveStalled player
           (createConverter 60 1)).
  reflexivity.
Defined.

(** X7 on the buffered range [2.5, 2.9), whose floored end, 2, does not lie
    above its start. *)
Lemma short_range_not_trimmed_witness :
  removals
    (snd (push keyFrame (at_ 0 (stuckTag [(5 # 2, 29 # 10)%Q])) player)) = [].
Proof.
  apply (short_range_not_trimmed firstByteClassifier keyFrame
           (at_ 0 (stuckTag [(5 # 2, 29 # 10)%Q])) player
           (5 # 2)%Q (29 # 10)%Q []).
  - reflexivity.
  - unfold Qle. cbn. lia.
  - unfold Qlt. cbn. lia.
  - right. unfold Qle. cbn. lia.
Defined.

(** X8 on the sixth stalled push. *)
Lemma seek_follows_listener_witness :
  exists start0 end0 ranges before,
    buffered (tag (at_ 5000 (stuckTag oneRange))) = (start0, end0) :: ranges /\
    snd (push deltaFrame (at_ 5000 (stuckTag oneRange))
           (fst (pushAll fiveStalled player))) =
      before ++ [ConsoleWarn; AddSeekedListener; SetCurrentTime end0] /\
    seeks before = [].
Proof.
  apply (seek_follows_listener firstByteClassifier deltaFrame
           (at_ 5000 (stuckTag oneRange)) (fst (pushAll fiveStalled player))).
  vm_compute. discriminate.
Defined.

(** X12 on a restart while the recovery seek is in flight. *)
Lemma restart_keeps_detector_witness :
  let restarted := set_state PLAYING (set_state STOPPED (super afterSeek)) in
  let r := (stop (set_state STOPPED) ;; play (set_state PLAYING) clearStats)%method
             afterSeek in
  isSeeking afterSeek = true /\
  (converter (fst r) = Some (converterOfPlay restarted afterSeek) /\
   creations (snd r) = [converterOfPlay restarted afterSeek] /\
   videoStats (fst r) = [] /\
   stalledCounter (fst r) = stalledCounter afterSeek /\
   isSeeking (fst r) = isSeeking afterSeek /\
   seekedListeners (fst r) = seekedListeners afterSeek).
Proof.
  split; [vm_compute; reflexivity|].
  apply (restart_keeps_detector (set_state PLAYING) (set_state STOPPED)
           clearStats afterSeek).
  reflexivity.
Defined.

(** X13 on a push that finds 30 frames decoded, with the counter at 2. *)
Lemma progress_resets_counter_witness :
  let e := at_ 2000 (countingTag 30 oneRange) in
  stalledCounter afterTwoPushes = 2 /\
  (stalledCounter (fst (push deltaFrame e afterTwoPushes)) = 0 /\
   isSeeking (fst (push deltaFrame e afterTwoPushes)) = false /\
   seeks (snd (push deltaFrame e afterTwoPushes)) = []).
Proof.
  split; [vm_compute; reflexivity|].
  apply (progress_resets_counter firstByteClassifier deltaFrame
           (at_ 2000 (countingTag 30 oneRange)) afterTwoPushes
           (MomentumStats.mk 30 0 200 2 2000)).
  - vm_compute. reflexivity.
  - vm_compute. reflexivity.
  - reflexivity.
Defined.

(** X14 on seven stalled pushes without a buffered range and an eighth with
    one. *)
Lemma recovery_waits_for_buffer_witness :
  let ps := map unbufferedPush [0; 1000; 2000; 3000; 4000; 5000; 6000] in
  let e := at_ 7000 (stuckTag oneRange) in
  stalledCounter (fst (pushAll ps player)) =
    stalledCounter player + Z.of_nat (length ps) /\
  seeks (snd (pushAll ps player)) = [] /\
  seeks (snd (push deltaFrame e (fst (pushAll ps player)))) = [3%Q] /\
  stalledCounter (fst (push deltaFrame e (fst (pushAll ps player)))) = 0.
Proof.
  apply (recovery_waits_for_buffer firstByteClassifier
           (map unbufferedPush [0; 1000; 2000; 3000; 4000; 5000; 6000])
           deltaFrame (at_ 7000 (stuckTag oneRange)) player 0%Q 3%Q []).
  - reflexivity.
  - vm_compute. reflexivity.
  - repeat constructor.
  - reflexivity.
  - cbn. lia.
Defined.

(** X15 on three pushes to an element that only has the Gecko counter. *)
Lemma no_recovery_without_counters_witness :
  let ps := map geckoPush [0; 1000; 2000] in
  seeks (snd (pushAll ps player)) = [] /\
  stalledCounter (fst (pushAll ps player)) = stalledCounter player /\
  momentumQualityStats (super (fst (pushAll ps player))) = None /\
  inputBytes (super (fst (pushAll ps player))) =
    inputBytes (super player)
    ++ map (fun p => InputSample.mk (nowInput (snd p)) (byteLength (fst p))) ps.
Proof.
  apply (no_recovery_without_counters firstByteClassifier
           (map geckoPush [0; 1000; 2000]) player).
  - reflexivity.
  - cbn. lia.
  - repeat constructor.
Defined.

(** X16 on three stalled pushes after the seek has ended. *)
Lemma counting_restarts_after_seek_witness :
  let ps := map stalledPush [6000; 7000; 8000] in
  let resumed := fst (onSeekEnd afterSeek) in
  seeks (snd (pushAll ps resumed)) = [] /\
  stalledCounter (fst (pushAll ps resumed)) = Z.of_nat (length ps) /\
  isSeeking (fst (pushAll ps resumed)) = false.
Proof.
  apply (counting_restarts_after_seek firstByteClassifier deltaFrame
           (at_ 5000 (stuckTag oneRange)) (fst (pushAll fiveStalled player))
           (map stalledPush [6000; 7000; 8000])).
  - vm_compute. discriminate.
  - vm_compute. reflexivity.
  - cbn. lia.
Defined.

(** X19 on pushes mixed with every lifecycle call after the seek. *)
Lemma no_second_seek_before_seeked_witness :
  let cs := [CallPushFrame deltaFrame (at_ 6000 (stuckTag oneRange));
             CallStop; CallPlay;
             CallPushFrame keyFrame (at_ 7000 (stuckTag oneRange));
             CallSetVideoSettings thirtyFps false;
             CallResetStats; CallPause;
             CallPushFrame deltaFrame (at_ 8000 (stuckTag oneRange))] in
  seeks (snd (doAll cs afterSeek)) = [] /\
  isSeeking (fst (doAll cs afterSeek)) = true.
Proof.
  apply (no_second_seek_before_seeked firstByteClassifier (set_state PLAYING)
           (set_state PAUSED) (set_state STOPPED) clearStats storeVideoSettings
           deltaFrame (at_ 5000 (stuckTag oneRange))
           (fst (pushAll fiveStalled player))).
  - vm_compute. discriminate.
  - reflexivity.
Defined.

(** X20 on three pushes one second apart, from empty windows. *)
Lemma windows_hold_last_second_witness :
  let e := at_ 2000 (stuckTag oneRange) in
  let o' := fst (pushAll (map stalledPush [0; 1000] ++ [(deltaFrame, e)]) player) in
  Forall (fun s => nowMomentum e - 1000 <= QualityStats.timestamp s <= nowMomentum e)
    (videoStats o') /\
  Forall (fun s => nowMomentum e - 1000 <= InputSample.timestamp s <= nowMomentum e)
    (inputBytes (super o')).
Proof.
  apply (windows_hold_last_second firstByteClassifier (map stalledPush [0; 1000])
           deltaFrame (at_ 2000 (stuckTag oneRange)) player 0
           (QualityStats.mk 2000 0 0)).
  - repeat constructor.
  - cbn. lia.
  - reflexivity.
Defined.

(** X21 on the third stalled push. *)
Lemma pushed_frame_is_counted_witness :
  exists m,
    momentumQualityStats
      (super (fst (push deltaFrame (at_ 2000 (stuckTag oneRange)) afterTwoPushes)))
      = Some m /\
    1 <= MomentumStats.inputFrames m /\
    (isStalled m = true <-> MomentumStats.decodedFrames m = 0).
Proof.
  apply (pushed_frame_is_counted firstByteClassifier deltaFrame
           (at_ 2000 (stuckTag oneRange)) afterTwoPushes
           (QualityStats.mk 2000 0 0)).
  - reflexivity.
  - cbn. lia.
  - cbn. lia.
Defined.

(** X22 on the settings the player already has. *)
Lemma setVideoSettings_same_rate_witness :
  setVideoSettings (set_state PLAYING) (set_state STOPPED) clearStats
    storeVideoSettings preferredVideoSettings true player =
  super_setVideoSettings storeVideoSettings preferredVideoSettings true player /\
  snd (setVideoSettings (set_state PLAYING) (set_state STOPPED) clearStats
         storeVideoSettings preferredVideoSettings true player) = [] /\
  converter
    (fst (setVideoSettings (set_state PLAYING) (set_state STOPPED) clearStats
            storeVideoSettings preferredVideoSettings true player)) =
    converter player.
Proof.
  apply (setVideoSettings_same_rate (set_state PLAYING) (set_state STOPPED)
           clearStats storeVideoSettings preferredVideoSettings true player).
  right. exists preferredVideoSettings. split; reflexivity.
Defined.

(** X23 on a playing decoder without a converter that is given 30 frames
    per second: the converter is created for 60. *)
Lemma setVideoSettings_creates_for_old_rate_witness :
  converter
    (fst (setVideoSettings (set_state PLAYING) (set_state STOPPED) clearStats
            storeVideoSettings thirtyFps false waitingDecoder)) =
    Some (createConverter 60 1) /\
  snd (setVideoSettings (set_state PLAYING) (set_state STOPPED) clearStats
         storeVideoSettings thirtyFps false waitingDecoder) =
    [CreateConverter (createConverter 60 1); ConverterPlay].
Proof.
  apply (setVideoSettings_creates_for_old_rate (set_state PLAYING)
           (set_state STOPPED) clearStats storeVideoSettings thirtyFps
           preferredVideoSettings false waitingDecoder).
  - reflexivity.
  - cbn. lia.
  - reflexivity.
  - reflexivity.
  - reflexivity.
  - reflexivity.
Defined.

(** ** Where two of the statements stop *)

(** C5, counterexample.  After [pause()] the decoder has no converter: a
    key frame pushed while the first buffered range is [2.0, 5.0), with
    [2.0 < floor 5.0], sends nothing at all, neither the removal nor the
    append.  And with a converter, outside the times a media element
    reports, [| 0] is not the floor: a range that ends at 2^31 + 0.5, or
    one from -1 to 0.5, has its start below its floored end and is not
    removed. *)
Lemma key_frame_without_converter_not_trimmed :
  let paused := fst (pause (set_state PAUSED) player) in
  let e := at_ 0 (stuckTag [(2, 5)%Q]) in
  let late := at_ 0 (stuckTag [(0, 4294967297 # 2)%Q]) in
  let early := at_ 0 (stuckTag [(-1, 1 # 2)%Q]) in
  (firstByteClassifier keyFrame = true /\
   converter paused = None /\
   (2 < inject_Z (Qfloor 5))%Q /\
   snd (push keyFrame e paused) = [] /\
   removals (snd (push keyFrame e paused)) = []) /\
  ((0 < inject_Z (Qfloor (4294967297 # 2)))%Q /\
   removals (snd (push keyFrame late player)) = []) /\
  ((-1 < inject_Z (Qfloor (1 # 2)))%Q /\
   removals (snd (push keyFrame early player)) = []).
Proof.
  cbv zeta. repeat split; vm_compute; reflexivity.
Qed.

(** C9, counterexample.  With a recovery seek in flight, the first push
    after [resetStats()] recomputes a momentum with [decodedFrames] 0,
    [droppedFrames] 0 and [inputFrames] 1, and is not counted: the counter
    is 0 before the push, after its counting step and after the push. *)
Lemma first_observation_while_seeking_not_counted :
  let o0 := fst (resetStats clearStats afterSeek) in
  let e := at_ 6000 (stuckTag oneRange) in
  let o1 := fst (Decoder_pushFrame deltaFrame e o0) in
  isSeeking afterSeek = true /\
  stalledCounter afterSeek = 0 /\
  videoStats o0 = [] /\
  getVideoPlaybackQuality e = Some (QualityStats.mk 6000 0 0) /\
  momentumQualityStats (super o1) = Some (MomentumStats.mk 0 0 100 1 6000) /\
  stalledCounter (fst (countStalled o1)) = 0 /\
  stalledCounter (fst (push deltaFrame e o0)) = 0 /\
  stalledCounter (fst (push deltaFrame e o0)) <> stalledCounter afterSeek + 1.
Proof.
  cbv zeta. repeat split; try (vm_compute; reflexivity).
  vm_compute. discriminate.
Qed.
